(** * The download bot's data system (src/main.py), embedded in Rocq

    The bot keeps all durable state in one JSON file, [bot_data.json].
    Every handler loads the whole file into a Python dict, mutates the
    dict and writes it back.  This development embeds

    - the Python values the handlers manipulate (nested dicts of strings
      and integers) together with the exceptions the dict operations raise;
    - the world the handlers run in: the data file, the media files in the
      working directory, the log, the calls made on the Telegram API,
      the clock and the extractor threads that outlive their handler;
    - the functions [load_data], [save_data], [get_user_lang],
      [set_user_lang], [download_media], [stats_command] and
      [broadcast_command], written in a state-and-exception monad that
      follows the control flow of the source line by line.

    The collaborators that are not part of the repository (the [json]
    codec, the Telegram API, the media extractor and its worker thread,
    the file system's answer to [os.remove]) are the fields of the class
    [Env]. *)

From stdpp Require Import gmap strings list fin_maps.
From Stdlib Require Import ZArith DecimalString DecimalZ Ascii.

Set Warnings "-register-all".
Open Scope Z_scope.

(** ** Python values *)

(** What [json.load] can return, floats apart: the bot neither writes nor
    reads a float.  A dict is keyed by strings, as every JSON object is. *)
Inductive value :=
| VNone
| VBool (b : bool)
| VInt (n : Z)
| VStr (s : string)
| VList (l : list value)
| VDict (d : gmap string value).

(** The exceptions that occur.  [JSONDecodeError] and [UnicodeDecodeError]
    both derive from [ValueError], neither from the other.
    [CancelledError] derives from [BaseException] only: [except Exception]
    does not catch it. *)
Inductive exn :=
| FileNotFoundError
| JSONDecodeError
| UnicodeDecodeError
| KeyError (k : value)
| TypeError
| AttributeError
| Failure (msg : string)
| CancelledError.

Definition is_Exception (e : exn) : bool :=
  match e with
  | CancelledError => false
  | _ => true
  end.

Inductive outcome (A : Type) :=
| Ret (a : A)
| Raise (e : exn).
Arguments Ret {A} a.
Arguments Raise {A} e.

#[global] Instance outcome_ret : MRet outcome := @Ret.
#[global] Instance outcome_bind : MBind outcome := fun A B f c =>
  match c with
  | Ret a => f a
  | Raise e => Raise e
  end.

(** [str(n)] for a Python int. *)
Definition py_str (n : Z) : string := NilZero.string_of_int (Z.to_int n).

(** [d[k]] for a string [k]. *)
Definition getitem (d : value) (k : string) : outcome value :=
  match d with
  | VDict m =>
      match m !! k with
      | Some v => Ret v
      | None => Raise (KeyError (VStr k))
      end
  | _ => Raise TypeError
  end.

(** [d[k] = v] for a string [k]; the result is [d] after the assignment. *)
Definition setitem (d : value) (k : string) (v : value) : outcome value :=
  match d with
  | VDict m => Ret (VDict (<[k := v]> m))
  | _ => Raise TypeError
  end.

Definition is_str (s : string) (v : value) : bool :=
  match v with
  | VStr s' => bool_decide (s' = s)
  | _ => false
  end.

Definition is_infix (s t : string) : bool :=
  match String.index 0 s t with
  | Some _ => true
  | None => false
  end.

(** [k in d] for a string [k]: key membership in a dict, element
    membership in a list, substring test in a string. *)
Definition contains (k : string) (d : value) : outcome bool :=
  match d with
  | VDict m => Ret (bool_decide (is_Some (m !! k)))
  | VList l => Ret (existsb (is_str k) l)
  | VStr s => Ret (is_infix k s)
  | _ => Raise TypeError
  end.

(** [d.get(k, dflt)]; only a dict has the method. *)
Definition dict_get (d : value) (k : string) (dflt : value) : outcome value :=
  match d with
  | VDict m => Ret (default dflt (m !! k))
  | _ => Raise AttributeError
  end.

(** [v + 1], also the right-hand side of [x += 1]; [bool] is a subclass
    of [int]. *)
Definition add_one (v : value) : outcome value :=
  match v with
  | VInt n => Ret (VInt (n + 1))
  | VBool b => Ret (VInt ((if b then 1 else 0) + 1))
  | _ => Raise TypeError
  end.

(** [d[k] = f(d[k])]: the item is read, transformed and stored back.  It
    covers the augmented assignment [d[k] += 1] and, because Python dicts
    are shared objects, an assignment through a path: after
    [d[k][j] = v] the dict [d] holds the changed inner dict. *)
Definition update_at (d : value) (k : string) (f : value -> outcome value)
  : outcome value :=
  v ← getitem d k; v' ← f v; setitem d k v'.

(** The integer an operand of [+] or [>] stands for. *)
Definition as_int (v : value) : outcome Z :=
  match v with
  | VInt n => Ret n
  | VBool b => Ret (if b then 1 else 0)
  | _ => Raise TypeError
  end.

(** [len(d)]. *)
Definition py_len (d : value) : outcome Z :=
  match d with
  | VDict m => Ret (Z.of_nat (size m))
  | VList l => Ret (Z.of_nat (length l))
  | VStr s => Ret (Z.of_nat (String.length s))
  | _ => Raise TypeError
  end.

(** [d.keys()] and [d.values()], in the order the dict is iterated. *)
Definition dict_keys (d : value) : outcome (list string) :=
  match d with
  | VDict m => Ret (map_to_list m).*1
  | _ => Raise AttributeError
  end.

Definition dict_values (d : value) : outcome (list value) :=
  match d with
  | VDict m => Ret (map_to_list m).*2
  | _ => Raise AttributeError
  end.

(** ** Messages, API calls and log records *)

(** The texts are kept symbolic: a message is the entry of [TEXTS] it was
    taken from, or the data interpolated into it. *)
Inductive message :=
| Texts (lang key : string)
| TextsFormat (lang key : string) (n : Z)
| ErrorReport (prefix : message) (e : exn)
| StatsReport (total_users total_downloads : Z)
              (ar_downloads en_downloads version start_date : value)
| Usage (command : string).

(** [TEXTS[lang][key]].  [TEXTS] has the entries "ar" and "en", and both
    define every key the handlers use. *)
Definition TEXTS (lang : value) (key : string) : outcome message :=
  match lang with
  | VStr l =>
      if bool_decide (l = "ar" ∨ l = "en") then Ret (Texts l key)
      else Raise (KeyError lang)
  | VList _ | VDict _ => Raise TypeError
  | _ => Raise (KeyError lang)
  end.

Inductive call :=
| ReplyText (m : message)
| ReplyVideo (file : string) (caption : message)
| ReplyPhoto (file : string) (caption : message)
| DeleteMessage
| SendMessage (chat_id : string) (body : string).

Inductive log_record :=
| DownloadError (e : exn)
| DeleteError (e : exn)
| BroadcastError (user_id : string) (e : exn).

(** ** The collaborators *)

Class Env := {
  (** what a file holds, with [json.dump] and [json.load] on a file
      opened as text; [json_loads c = None] when [json.load] raises on [c] *)
  text : Type;
  json_dumps : value -> text;
  json_loads : text -> option value;
  (** what [json.load] then raises: [JSONDecodeError] on text that is not
      a JSON document, [UnicodeDecodeError] on bytes that are not text in
      the encoding of the locale *)
  json_load_error : text -> exn;
  (** the answer of the Telegram API to a call, given the calls made so far *)
  telegram : list call -> call -> outcome unit;
  (** the wait for [ydl.extract_info(url, download=True)], which runs in
      a worker thread with [outtmpl] set: how the wait ends, and whether
      the output file has been written by then.  The wait ends with what
      the extractor returned or raised, or with [CancelledError] when the
      task is cancelled in the meantime *)
  extract_info : string -> string -> outcome value * bool;
  (** a cancelled wait does not stop the worker thread: whether the
      thread, running on, writes the output file afterwards *)
  written_later : string -> string -> bool;
  (** the error [os.remove] ends with on an existing file, if any *)
  remove_error : string -> option exn;
  ADMIN_CHAT_ID : option string;
}.

(** [json.load] and [json.dump] are inverse on the values above. *)
Definition codec_roundtrip `{Env} : Prop :=
  ∀ v : value, json_loads (json_dumps v) = Some v.

(** ** The world and the monad of handlers *)

Section Model.
Context `{Env}.

Record World := mkWorld {
  w_data_file : option text;   (* DATA_FILE; None when it does not exist *)
  w_media : gset string;       (* the media files in the working directory *)
  w_log : list log_record;     (* logger.error records, oldest first *)
  w_calls : list call;         (* Telegram API calls, oldest first *)
  w_now : string;              (* str(datetime.datetime.now()) *)
  w_workers : gset string;     (* the files that worker threads left running
                                  have still to write *)
}.

(** A computation changes the world and returns or raises; what it did
    before raising stays done. *)
Definition M (A : Type) : Type := World -> outcome A * World.

#[global] Instance M_ret : MRet M := fun A a w => (Ret a, w).
#[global] Instance M_bind : MBind M := fun A B f c w =>
  match c w with
  | (Ret a, w') => f a w'
  | (Raise e, w') => (Raise e, w')
  end.

Definition lift {A} (c : outcome A) : M A := fun w => (c, w).

(** [try: body  except <catches> as e: handler e] *)
Definition try_except {A} (body : M A) (catches : exn -> bool)
    (handler : exn -> M A) : M A := fun w =>
  match body w with
  | (Raise e, w') => if catches e then handler e w' else (Raise e, w')
  | r => r
  end.

(** [try: body  finally: final].  The final block runs on every exit of
    the body; an exception it raises replaces the body's outcome. *)
Definition try_finally {A} (body : M A) (final : M unit) : M A := fun w =>
  let '(r, w') := body w in
  match final w' with
  | (Ret _, w'') => (r, w'')
  | (Raise e, w'') => (Raise e, w'')
  end.

Definition datetime_now : M string := fun w => (Ret (w_now w), w).

Definition logger_error (r : log_record) : M unit := fun w =>
  (Ret tt, mkWorld (w_data_file w) (w_media w) (w_log w ++ [r]) (w_calls w)
                   (w_now w) (w_workers w)).

(** A call on the Telegram API ([update.message.reply_text],
    [context.bot.send_message], ...). *)
Definition bot (c : call) : M unit := fun w =>
  (telegram (w_calls w) c,
   mkWorld (w_data_file w) (w_media w) (w_log w) (w_calls w ++ [c]) (w_now w)
           (w_workers w)).

(** [open(DATA_FILE, "r")]: a file that is there can be opened, and what
    it holds is what [json.load] will read. *)
Definition read_data_file : M text := fun w =>
  match w_data_file w with
  | Some c => (Ret c, w)
  | None => (Raise FileNotFoundError, w)
  end.

Definition with_data_file (w : World) (c : text) : World :=
  mkWorld (Some c) (w_media w) (w_log w) (w_calls w) (w_now w) (w_workers w).

(** [open(DATA_FILE, "w")] followed by writing [c]. *)
Definition write_data_file (c : text) : M unit := fun w =>
  (Ret tt, with_data_file w c).

(** [json.load(f)] on the file opened at line 99, which holds [c]. *)
Definition json_load (c : text) : outcome value :=
  match json_loads c with
  | Some v => Ret v
  | None => Raise (json_load_error c)
  end.

Definition path_exists (file : string) : M bool := fun w =>
  (Ret (bool_decide (file ∈ w_media w)), w).

Definition os_remove (file : string) : M unit := fun w =>
  if bool_decide (file ∈ w_media w) then
    match remove_error file with
    | Some e => (Raise e, w)
    | None =>
        (Ret tt, mkWorld (w_data_file w) (w_media w ∖ {[file]}) (w_log w)
                         (w_calls w) (w_now w) (w_workers w))
    end
  else (Raise FileNotFoundError, w).

(** Line 202, [await asyncio.to_thread(ydl.extract_info, url,
    download=True)]: the output file is there when it was written by the
    end of the wait.  When the wait ends with [CancelledError] the worker
    thread runs on, and a file it writes from then on is not there yet:
    it is one that a thread has still to write. *)
Definition ydl_extract (url file : string) : M value := fun w =>
  let '(r, written) := extract_info url file in
  let w1 := if written
            then mkWorld (w_data_file w) ({[file]} ∪ w_media w) (w_log w)
                         (w_calls w) (w_now w) (w_workers w)
            else w in
  (r, match r with
      | Raise CancelledError =>
          if written_later url file
          then mkWorld (w_data_file w1) (w_media w1) (w_log w1) (w_calls w1)
                       (w_now w1) ({[file]} ∪ w_workers w1)
          else w1
      | _ => w1
      end).

(** The world once the worker threads left running have ended: what they
    had to write is written. *)
Definition workers_end (w : World) : World :=
  mkWorld (w_data_file w) (w_workers w ∪ w_media w) (w_log w) (w_calls w)
          (w_now w) ∅.

(** ** Data system (main.py, lines 95-140) *)

Definition zero_stats : value :=
  VDict {[ "ar_downloads" := VInt 0; "en_downloads" := VInt 0 ]}.

Definition initial_data (now : string) : value :=
  VDict {[ "users" := VDict ∅;
           "system" := VDict {[ "version" := VStr "3.1";
                                "start_date" := VStr now ]};
           "global_stats" := zero_stats ]}.

Definition load_data : M value :=
  try_except
    (c ← read_data_file;
     data ← lift (json_load c);
     present ← lift (contains "global_stats" data);
     if negb present
     then lift (setitem data "global_stats" zero_stats)
     else mret data)
    (fun e => match e with
              | FileNotFoundError | JSONDecodeError => true
              | _ => false
              end)
    (fun _ => now ← datetime_now; mret (initial_data now)).

Definition save_data (data : value) : M unit :=
  write_data_file (json_dumps data).

Definition get_user_lang (user_id : Z) : M value :=
  data ← load_data;
  users ← lift (getitem data "users");
  user ← lift (dict_get users (py_str user_id) (VDict ∅));
  lift (dict_get user "lang" (VStr "en")).

Definition new_user (now : string) (lang : value) : value :=
  VDict {[ "first_seen" := VStr now;
           "lang" := lang;
           "download_count" := VInt 0 ]}.

(** Lines 132-139: what [set_user_lang] does to the loaded dict. *)
Definition set_user_lang_update (now key : string) (lang data : value)
  : outcome value :=
  users ← getitem data "users";
  known ← contains key users;
  if negb known
  then update_at data "users" (fun users => setitem users key (new_user now lang))
  else update_at data "users" (fun users =>
         update_at users key (fun user => setitem user "lang" lang)).

Definition set_user_lang (user_id : Z) (lang : value) : M unit :=
  data ← load_data;
  now ← datetime_now;
  data' ← lift (set_user_lang_update now (py_str user_id) lang data);
  save_data data'.

(** ** Handlers (main.py, lines 173-306) *)

(** What a handler reads from its [update]: the text of the message
    ([None] when there is no message or no text) and the sender's id. *)
Record Update := mkUpdate {
  message_text : option string;
  effective_user_id : Z;
}.

(** Lines 225-232: what a completed download does to the loaded dict. *)
Definition record_download_update (key : string) (lang data : value)
  : outcome value :=
  data ← (if is_str "ar" lang then
            update_at data "global_stats" (fun stats =>
              update_at stats "ar_downloads" add_one)
          else if is_str "en" lang then
            update_at data "global_stats" (fun stats =>
              update_at stats "en_downloads" add_one)
          else Ret data);
  users ← getitem data "users";
  known ← contains key users;
  if (known : bool)
  then update_at data "users" (fun users =>
         update_at users key (fun user =>
           update_at user "download_count" add_one))
  else Ret data.

(** Lines 224-234: one load, the two counters, one save. *)
Definition record_download (user_id : Z) (lang : value) : M unit :=
  data ← load_data;
  data' ← lift (record_download_update (py_str user_id) lang data);
  save_data data'.

(** Lines 241-245, the body of the [finally] block. *)
Definition cleanup (file_name : string) : M unit :=
  present ← path_exists file_name;
  if (present : bool)
  then try_except (os_remove file_name) is_Exception
         (fun e => logger_error (DeleteError e))
  else mret tt.

(** Lines 186-234, the body of the [try] block. *)
Definition download_body (file_name url : string) (user_id : Z) (lang : value)
  : M unit :=
  info ← ydl_extract url file_name;
  present ← path_exists file_name;
  if (present : bool) then
    duration ← lift (dict_get info "duration" (VInt 0));
    seconds ← lift (as_int duration);
    success ← lift (TEXTS lang "success");
    (if bool_decide (0 < seconds)
     then bot (ReplyVideo file_name success)
     else bot (ReplyPhoto file_name success));;
    bot DeleteMessage;;
    record_download user_id lang
  else mret tt.

(** Lines 237-238, the [except Exception as e] block. *)
Definition download_failed (lang : value) (e : exn) : M unit :=
  logger_error (DownloadError e);;
  prefix ← lift (TEXTS lang "error");
  bot (ReplyText (ErrorReport prefix e)).

(** [file_name] is the name drawn at line 181 from [uuid.uuid4()]. *)
Definition download_media (file_name : string) (update : Update) : M unit :=
  match message_text update with
  | None | Some "" => mret tt
  | Some url =>
      let user_id := effective_user_id update in
      lang ← get_user_lang user_id;
      downloading ← lift (TEXTS lang "downloading");
      bot (ReplyText downloading);;
      try_finally
        (try_except (download_body file_name url user_id lang)
                    is_Exception (download_failed lang))
        (cleanup file_name)
  end.

(** [str(update.effective_user.id) != ADMIN_CHAT_ID], negated. *)
Definition is_admin (update : Update) : bool :=
  bool_decide (Some (py_str (effective_user_id update)) = ADMIN_CHAT_ID).

Record Totals := mkTotals {
  total_users : Z;
  total_downloads : Z;
  ar_downloads : value;
  en_downloads : value;
  bot_version : value;
  bot_start_date : value;
}.

(** [sum(user.get("download_count", 0) for user in users)], from [acc]. *)
Fixpoint sum_download_count (users : list value) (acc : Z) : outcome Z :=
  match users with
  | [] => Ret acc
  | user :: rest =>
      count ← dict_get user "download_count" (VInt 0);
      n ← as_int count;
      sum_download_count rest (acc + n)
  end.

(** Lines 254-259 and the lookups of the report (lines 268-272). *)
Definition compute_totals (data : value) : outcome Totals :=
  users_data ← dict_get data "users" (VDict ∅);
  system_data ← dict_get data "system" (VDict ∅);
  global_stats ← dict_get data "global_stats" zero_stats;
  total_users ← py_len users_data;
  records ← dict_values users_data;
  total_downloads ← sum_download_count records 0;
  ar ← dict_get global_stats "ar_downloads" (VInt 0);
  en ← dict_get global_stats "en_downloads" (VInt 0);
  version ← dict_get system_data "version" (VStr "غير معروف");
  start_date ← dict_get system_data "start_date" (VStr "غير معروف");
  Ret (mkTotals total_users total_downloads ar en version start_date).

Definition stats_command (update : Update) : M unit :=
  if negb (is_admin update)
  then bot (ReplyText (Texts "en" "no_permission"))
  else
    data ← load_data;
    t ← lift (compute_totals data);
    bot (ReplyText (StatsReport (total_users t) (total_downloads t)
                      (ar_downloads t) (en_downloads t)
                      (bot_version t) (bot_start_date t))).

(** [await asyncio.sleep(0.1)] changes nothing in the world. *)
Definition asyncio_sleep : M unit := mret tt.

(** Lines 292-302: the loop over the ids, from the counts so far. *)
Fixpoint broadcast_loop (body : string) (user_ids : list string)
    (sent_count error_count : Z) : M (Z * Z) :=
  match user_ids with
  | [] => mret (sent_count, error_count)
  | user_id :: rest =>
      counts ← try_except
        (bot (SendMessage user_id body);;
         asyncio_sleep;;
         mret (sent_count + 1, error_count))
        is_Exception
        (fun e =>
           logger_error (BroadcastError user_id e);;
           mret (sent_count, error_count + 1));
      broadcast_loop body rest counts.1 counts.2
  end.

Definition broadcast_command (update : Update) (args : list string) : M unit :=
  if negb (is_admin update)
  then bot (ReplyText (Texts "en" "no_permission"))
  else
    match args with
    | [] => bot (ReplyText (Usage "broadcast"))
    | _ =>
        let message_to_send := String.concat " " args in
        data ← load_data;
        users ← lift (getitem data "users");
        user_ids ← lift (dict_keys users);
        counts ← broadcast_loop message_to_send user_ids 0 0;
        bot (ReplyText (TextsFormat "ar" "broadcast_sent" counts.1));;
        if bool_decide (0 < counts.2)
        then bot (ReplyText (TextsFormat "ar" "broadcast_error" counts.2))
        else mret tt
    end.

(** A computation that leaves an observation [f] of the world as it was. *)
Definition preserves {X A} (f : World -> X) (c : M A) : Prop :=
  ∀ w, f (c w).2 = f w.

(** The files and the log of [w'] are those of [w]. *)
Definition same_files (w w' : World) : Prop :=
  w_data_file w' = w_data_file w ∧ w_media w' = w_media w ∧ w_log w' = w_log w.

(** The state of the media files after a download that started from
    [before]: the temporary file is gone, unless [os.remove] fails on it,
    and then the failure, if an [Exception], is the last thing logged. *)
Definition tidy_after (file : string) (before : gset string) (w' : World)
  : Prop :=
  match remove_error file with
  | None => w_media w' = before
  | Some e =>
      w_media w' = before ∨
      (w_media w' = {[file]} ∪ before ∧
       (is_Exception e = true -> last (w_log w') = Some (DeleteError e)))
  end.

(** The wait for the extractor ends with an error, or the extractor
    returns without an output file in place. *)
Definition extraction_failed (file url : string) (w : World) : Prop :=
  (∃ e written, extract_info url file = (Raise e, written)) ∨
  (∃ info, extract_info url file = (Ret info, false) ∧ file ∉ w_media w).

(** The answers the API gives when [body] is sent to the ids in turn,
    after the calls in [history]. *)
Fixpoint send_results (history : list call) (body : string)
    (user_ids : list string) : list (outcome unit) :=
  match user_ids with
  | [] => []
  | user_id :: rest =>
      telegram history (SendMessage user_id body)
      :: send_results (history ++ [SendMessage user_id body]) body rest
  end.

End Model.

Definition succeeded {A} (r : outcome A) : bool :=
  match r with
  | Ret _ => true
  | Raise _ => false
  end.

Definition failed {A} (r : outcome A) : bool := negb (succeeded r).

(** The number of elements of [l] that satisfy [p]. *)
Fixpoint count_if {A} (p : A -> bool) (l : list A) : Z :=
  match l with
  | [] => 0
  | x :: l => (if p x then 1 else 0) + count_if p l
  end.

(** ** The stores the bot builds *)

(** The dict literals of [load_data] and [set_user_lang] fix the shape of
    every store the bot writes: [dict_of_store] spells that shape out, so that a
    statement can name the fields of a record instead of dict keys. *)
Record UserRecord := mkUser {
  u_first_seen : string;
  u_lang : string;
  u_download_count : Z;
}.

Record Store := mkStore {
  st_users : gmap string UserRecord;
  st_version : string;
  st_start_date : string;
  st_ar_downloads : Z;
  st_en_downloads : Z;
}.

Definition dict_of_user (u : UserRecord) : value :=
  VDict {[ "first_seen" := VStr (u_first_seen u);
           "lang" := VStr (u_lang u);
           "download_count" := VInt (u_download_count u) ]}.

Definition dict_of_store (s : Store) : value :=
  VDict {[ "users" := VDict (dict_of_user <$> st_users s);
           "system" := VDict {[ "version" := VStr (st_version s);
                                "start_date" := VStr (st_start_date s) ]};
           "global_stats" :=
             VDict {[ "ar_downloads" := VInt (st_ar_downloads s);
                      "en_downloads" := VInt (st_en_downloads s) ]} ]}.

Definition initial_store (now : string) : Store := mkStore ∅ "3.1" now 0 0.

Definition with_users (s : Store) (users : gmap string UserRecord) : Store :=
  mkStore users (st_version s) (st_start_date s)
          (st_ar_downloads s) (st_en_downloads s).

(** The store after the counter of [language] went up, if it has one. *)
Definition count_language (language : string) (s : Store) : Store :=
  if bool_decide (language = "ar") then
    mkStore (st_users s) (st_version s) (st_start_date s)
            (st_ar_downloads s + 1) (st_en_downloads s)
  else if bool_decide (language = "en") then
    mkStore (st_users s) (st_version s) (st_start_date s)
            (st_ar_downloads s) (st_en_downloads s + 1)
  else s.

(** The record [set_user_lang] stores for a key, given the one it finds. *)
Definition relabelled (now language : string) (found : option UserRecord)
  : UserRecord :=
  match found with
  | Some u => mkUser (u_first_seen u) language (u_download_count u)
  | None => mkUser now language 0
  end.

(** The store after the download count of [key] went up, if it is there. *)
Definition count_user (key : string) (s : Store) : Store :=
  match st_users s !! key with
  | Some u =>
      with_users s (<[key := mkUser (u_first_seen u) (u_lang u)
                                    (u_download_count u + 1)]> (st_users s))
  | None => s
  end.

(** The download count a user dict shows ([0] without the key). *)
Definition count_of (user : value) : Z :=
  match dict_get user "download_count" (VInt 0) with
  | Ret (VInt n) => n
  | _ => 0
  end.

Definition sum_counts (users : list value) : Z :=
  foldr (fun user acc => count_of user + acc) 0 users.

(** The sum of the users' download counts in a store. *)
Definition downloads_of_users (users : gmap string UserRecord) : Z :=
  map_fold (fun _ u acc => u_download_count u + acc) 0 users.

(** The two operations of the user directory, as requests on the store. *)
Inductive op :=
| SetLanguage (now : string) (user_id : Z) (language : string)
| RecordDownload (user_id : Z) (language : string).

Definition apply_op (o : op) (data : value) : outcome value :=
  match o with
  | SetLanguage now user_id language =>
      set_user_lang_update now (py_str user_id) (VStr language) data
  | RecordDownload user_id language =>
      record_download_update (py_str user_id) (VStr language) data
  end.

(** The stores reached from the initial one by operations that succeed
    and that [allowed] admits in the store they are applied to. *)
Inductive reachable_when (allowed : op -> value -> Prop) : value -> Prop :=
| reachable_initial now :
    reachable_when allowed (initial_data now)
| reachable_step o data data' :
    reachable_when allowed data ->
    allowed o data ->
    apply_op o data = Ret data' ->
    reachable_when allowed data'.

Definition reachable : value -> Prop := reachable_when (fun _ _ => True).

(** A download is recorded for a registered user, in one of the two
    languages that have a counter. *)
Definition counted_download (o : op) (data : value) : Prop :=
  match o with
  | SetLanguage _ _ _ => True
  | RecordDownload user_id language =>
      (language = "ar" ∨ language = "en") ∧
      (users ← getitem data "users"; contains (py_str user_id) users) = Ret true
  end.

(** The consistency check on the redundant counts: the total downloads
    that [compute_totals] reports is the sum of the two per-language
    counters it reports. *)
Definition counters_mirrored (data : value) : Prop :=
  ∃ t a e,
    compute_totals data = Ret t ∧
    ar_downloads t = VInt a ∧ en_downloads t = VInt e ∧
    total_downloads t = a + e.

(** [user_id] is not passed to [set_language]. *)
Definition never_set (user_id : Z) (o : op) (data : value) : Prop :=
  match o with
  | SetLanguage _ user_id' _ => user_id' ≠ user_id
  | RecordDownload _ _ => True
  end.

(** ** Concrete collaborators *)

(** Files that hold a JSON document as such, or text that is not one
    ([None]); a Telegram API, an extractor and a file system scripted by
    functions; no worker thread outlives its handler. *)
Definition scripted (api : list call -> call -> outcome unit)
    (extractor : string -> string -> outcome value * bool)
    (removal : string -> option exn) : Env :=
  {| text := option value;
     json_dumps := Some;
     json_loads := id;
     json_load_error := fun _ => JSONDecodeError;
     telegram := api;
     extract_info := extractor;
     written_later := fun _ _ => false;
     remove_error := removal;
     ADMIN_CHAT_ID := Some "1" |}.

(** Everything works: calls succeed, the extractor writes a ten-second
    video, files can be removed. *)
Definition fair_weather : Env :=
  scripted (fun _ _ => Ret tt)
           (fun _ _ => (Ret (VDict {[ "duration" := VInt 10 ]}), true))
           (fun _ => None).

(** The extractor writes its file, which then cannot be removed. *)
Definition stuck_file : Env :=
  scripted (fun _ _ => Ret tt)
           (fun _ _ => (Ret (VDict {[ "duration" := VInt 10 ]}), true))
           (fun _ => Some (Failure "PermissionError")).

(** The extractor fails before it writes anything. *)
Definition failing_extractor : Env :=
  scripted (fun _ _ => Ret tt)
           (fun _ _ => (Raise (Failure "Unsupported URL"), false))
           (fun _ => None).

(** Sending to chat "2" fails, every other call succeeds. *)
Definition fails_for_2 : Env :=
  scripted (fun _ c =>
              match c with
              | SendMessage "2" _ => Raise (Failure "Forbidden")
              | _ => Ret tt
              end)
           (fun _ _ => (Raise (Failure "Unsupported URL"), false))
           (fun _ => None).

(** What a data file holds when anything may have written it. *)
Inductive file_content :=
| Document (v : value)   (* a JSON document *)
| NotJSON                (* text that is not a JSON document *)
| NotText.               (* bytes that are not text in the locale's encoding *)

(** Fair weather, on such files. *)
Definition any_file : Env :=
  {| text := file_content;
     json_dumps := Document;
     json_loads := fun c => match c with Document v => Some v | _ => None end;
     json_load_error := fun c =>
       match c with NotText => UnicodeDecodeError | _ => JSONDecodeError end;
     telegram := fun _ _ => Ret tt;
     extract_info := fun _ _ => (Ret (VDict {[ "duration" := VInt 10 ]}), true);
     written_later := fun _ _ => false;
     remove_error := fun _ => None;
     ADMIN_CHAT_ID := Some "1" |}.

(** The task is cancelled while it waits for the extractor, before the
    worker thread has written its file; the thread writes it afterwards. *)
Definition cancelled_wait : Env :=
  {| text := option value;
     json_dumps := Some;
     json_loads := id;
     json_load_error := fun _ => JSONDecodeError;
     telegram := fun _ _ => Ret tt;
     extract_info := fun _ _ => (Raise CancelledError, false);
     written_later := fun _ _ => true;
     remove_error := fun _ => None;
     ADMIN_CHAT_ID := Some "1" |}.

(** A world with no data file, no media file and nothing logged or sent. *)
Definition fresh_world `{Env} (now : string) : World :=
  mkWorld None ∅ [] [] now ∅.

(** A store of the bot's shape whose users dict holds, besides the
    records of [s], the dicts [others], of any shape: records that
    another version of the script or a hand has written. *)
Definition dict_of_store_with (others : gmap string value) (s : Store) : value :=
  VDict {[ "users" := VDict (others ∪ (dict_of_user <$> st_users s));
           "system" := VDict {[ "version" := VStr (st_version s);
                                "start_date" := VStr (st_start_date s) ]};
           "global_stats" :=
             VDict {[ "ar_downloads" := VInt (st_ar_downloads s);
                      "en_downloads" := VInt (st_en_downloads s) ]} ]}.

(** ** The other handlers and the start-up
       (main.py, lines 143-171, 308-336 and 355-356) *)

(** [s.split(sep)] for a separator of one character: the pieces between
    the separators, of which there is always at least one. *)
Fixpoint split_at (sep : Ascii.ascii) (s : string) : list string :=
  match s with
  | EmptyString => [EmptyString]
  | String c rest =>
      if Ascii.eqb c sep then EmptyString :: split_at sep rest
      else match split_at sep rest with
           | piece :: pieces => String c piece :: pieces
           | [] => [String c EmptyString]
           end
  end.

(** The truth value of [v] in a condition such as [if user_data:]. *)
Definition truthy (v : value) : bool :=
  match v with
  | VNone => false
  | VBool b => b
  | VInt n => negb (n =? 0)
  | VStr s => negb (String.eqb s "")
  | VList l => match l with [] => false | _ => true end
  | VDict d => match map_to_list d with [] => false | _ => true end
  end.

(** The API calls that carry more than a [call] can say: the language
    prompt with its two buttons (lines 151-154), [query.answer()], the
    welcome that replaces the prompt (lines 169-171) and the user sheet
    (lines 326-334).  They touch neither files nor log; how each one ends
    is up to [notify], and they are not kept in [w_calls]. *)
Inductive notice :=
| LanguagePrompt
| QueryAnswer
| Welcome (welcome start : message)
| UserSheet (target : string) (first_seen lang download_count : value).

(** What [language_handler] reads from its callback query. *)
Record CallbackQuery := mkQuery {
  query_data : string;
  from_user_id : Z;
}.

Section Conversation.
Context `{Env} (notify : notice -> outcome unit).

Definition send_notice (n : notice) : M unit := fun w => (notify n, w).

(** Lines 143-154. *)
Definition start_command (update : Update) : M unit :=
  let user_id := effective_user_id update in
  lang ← get_user_lang user_id;
  set_user_lang user_id lang;;
  send_notice LanguagePrompt.

(** Lines 156-160. *)
Definition help_command (update : Update) : M unit :=
  let user_id := effective_user_id update in
  lang ← get_user_lang user_id;
  help ← lift (TEXTS lang "help");
  bot (ReplyText help).

(** [query.data.split("_")[1]]; an index out of range is an [Exception]. *)
Definition second_piece (data : string) : outcome string :=
  match split_at "_"%char data !! 1%nat with
  | Some piece => Ret piece
  | None => Raise (Failure "IndexError")
  end.

(** Lines 162-171. *)
Definition language_handler (query : CallbackQuery) : M unit :=
  send_notice QueryAnswer;;
  let user_id := from_user_id query in
  lang ← lift (second_piece (query_data query));
  set_user_lang user_id (VStr lang);;
  welcome ← lift (TEXTS (VStr lang) "welcome");
  start ← lift (TEXTS (VStr lang) "start");
  send_notice (Welcome welcome start).

(** Line 348: the handler is registered for the queries whose data
    begins with "lang_"; any other query is left alone. *)
Definition callback_query_handler (query : CallbackQuery) : M unit :=
  if String.prefix "lang_" (query_data query)
  then language_handler query
  else mret tt.

(** Lines 308-336. *)
Definition user_info_command (update : Update) (args : list string) : M unit :=
  if negb (is_admin update)
  then bot (ReplyText (Texts "en" "no_permission"))
  else
    match args with
    | [] => bot (ReplyText (Usage "userinfo"))
    | target_user_id :: _ =>
        data ← load_data;
        users ← lift (getitem data "users");
        user_data ← lift (dict_get users target_user_id VNone);
        if truthy user_data then
          first_seen ← lift (dict_get user_data "first_seen" (VStr "غير معروف"));
          lang ← lift (dict_get user_data "lang" (VStr "غير معروف"));
          download_count ← lift (dict_get user_data "download_count" (VInt 0));
          send_notice (UserSheet target_user_id first_seen lang download_count)
        else bot (ReplyText (Texts "ar" "user_not_found"))
    end.

(** [os.path.exists(DATA_FILE)] *)
Definition data_file_exists : M bool := fun w =>
  (Ret (bool_decide (is_Some (w_data_file w))), w).

(** Lines 355-356, what the script does before it starts the bot. *)
Definition bootstrap : M unit :=
  present ← data_file_exists;
  if negb present
  then data ← load_data; save_data data
  else mret tt.

End Conversation.

(** Every notice goes through. *)
Definition delivered : notice -> outcome unit := fun _ => Ret tt.

(** * Properties *)

(** ** The shape of the stores *)

Section Stores.
Implicit Types (s : Store) (u : UserRecord) (us : gmap string UserRecord).

Lemma py_str_inj n m : py_str n = py_str m -> n = m.
Proof.
  unfold py_str. intros Heq.
  apply DecimalZ.to_int_inj.
  assert (Hnn : forall z, Z.to_int z <> Decimal.Pos Decimal.Nil /\ Z.to_int z <> Decimal.Neg Decimal.Nil).
  { intros [|p|p]; simpl; split; try discriminate; intros [= Hp];
      by apply DecimalPos.Unsigned.to_uint_nonnil in Hp. }
  destruct (Hnn n) as [Hn1 Hn2], (Hnn m) as [Hm1 Hm2].
  apply (f_equal NilZero.int_of_string) in Heq.
  rewrite !NilZero.isi in Heq by done. congruence.
Qed.

Lemma initial_data_shape now : initial_data now = dict_of_store (initial_store now).
Proof. reflexivity. Qed.

Lemma getitem_users s :
  getitem (dict_of_store s) "users" = Ret (VDict (dict_of_user <$> st_users s)).
Proof. reflexivity. Qed.

Lemma contains_users key us :
  contains key (VDict (dict_of_user <$> us)) = Ret (bool_decide (is_Some (us !! key))).
Proof.
  simpl. rewrite lookup_fmap. f_equal. apply bool_decide_ext.
  by rewrite fmap_is_Some.
Qed.

Lemma update_users s f us' :
  f (VDict (dict_of_user <$> st_users s)) = Ret (VDict (dict_of_user <$> us')) ->
  update_at (dict_of_store s) "users" f = Ret (dict_of_store (with_users s us')).
Proof.
  intros Hf. unfold update_at. rewrite getitem_users. simpl. by rewrite Hf.
Qed.

Lemma setitem_user key u us :
  setitem (VDict (dict_of_user <$> us)) key (dict_of_user u)
  = Ret (VDict (dict_of_user <$> <[key := u]> us)).
Proof. simpl. by rewrite fmap_insert. Qed.

Lemma set_user_lang_update_shape now key language s :
  set_user_lang_update now key (VStr language) (dict_of_store s)
  = Ret (dict_of_store (with_users s
           (<[key := relabelled now language (st_users s !! key)]> (st_users s)))).
Proof.
  unfold set_user_lang_update. rewrite getitem_users. simpl mbind.
  rewrite lookup_fmap.
  destruct (st_users s !! key) as [u|] eqn:Hkey; simpl negb; cbv iota;
    apply update_users.
  - unfold update_at. simpl getitem. rewrite lookup_fmap, Hkey. simpl.
    rewrite fmap_insert. reflexivity.
  - apply (setitem_user key (mkUser now language 0)).
Qed.

Lemma count_language_shape language s :
  (if is_str "ar" (VStr language) then
     update_at (dict_of_store s) "global_stats" (fun stats =>
       update_at stats "ar_downloads" add_one)
   else if is_str "en" (VStr language) then
     update_at (dict_of_store s) "global_stats" (fun stats =>
       update_at stats "en_downloads" add_one)
   else Ret (dict_of_store s))
  = Ret (dict_of_store (count_language language s)).
Proof.
  unfold count_language, is_str.
  repeat case_bool_decide; reflexivity.
Qed.

Lemma count_user_shape key s :
  (users ← getitem (dict_of_store s) "users";
   known ← contains key users;
   if (known : bool)
   then update_at (dict_of_store s) "users" (fun users =>
          update_at users key (fun user =>
            update_at user "download_count" add_one))
   else Ret (dict_of_store s))
  = Ret (dict_of_store (count_user key s)).
Proof.
  rewrite getitem_users. simpl mbind. rewrite lookup_fmap. unfold count_user.
  destruct (st_users s !! key) as [u|] eqn:Hkey; simpl; [|done].
  apply update_users.
  unfold update_at at 1. simpl getitem. rewrite lookup_fmap, Hkey. simpl.
  rewrite fmap_insert. reflexivity.
Qed.

Lemma record_download_update_shape key language s :
  record_download_update key (VStr language) (dict_of_store s)
  = Ret (dict_of_store (count_user key (count_language language s))).
Proof.
  unfold record_download_update. rewrite count_language_shape.
  apply count_user_shape.
Qed.

Lemma apply_op_shape o s :
  ∃ s', apply_op o (dict_of_store s) = Ret (dict_of_store s').
Proof.
  destruct o as [now user_id language|user_id language]; simpl.
  - eexists. apply set_user_lang_update_shape.
  - eexists. apply record_download_update_shape.
Qed.

Lemma reachable_when_shape allowed data :
  reachable_when allowed data -> ∃ s, data = dict_of_store s.
Proof.
  induction 1 as [now|o data data' _ [s ->] _ Hstep].
  - by exists (initial_store now).
  - destruct (apply_op_shape o s) as [s' Hs']. exists s'. congruence.
Qed.
(** *** Sums of download counts *)

Lemma count_of_user u : count_of (dict_of_user u) = u_download_count u.
Proof. reflexivity. Qed.

Lemma sum_download_count_users (records : list UserRecord) acc :
  sum_download_count (dict_of_user <$> records) acc
  = Ret (acc + sum_counts (dict_of_user <$> records)).
Proof.
  revert acc. induction records as [|u records IH]; intros acc; simpl.
  - f_equal. lia.
  - change (sum_download_count (dict_of_user <$> records)
              (acc + u_download_count u)
            = Ret (acc + (count_of (dict_of_user u)
                          + sum_counts (dict_of_user <$> records)))).
    rewrite IH, count_of_user. f_equal. lia.
Qed.

Lemma sum_counts_cons user (users : list value) :
  sum_counts (user :: users) = count_of user + sum_counts users.
Proof. reflexivity. Qed.

Lemma sum_counts_perm (l1 l2 : list value) :
  l1 ≡ₚ l2 -> sum_counts l1 = sum_counts l2.
Proof.
  induction 1 as [|x l1 l2 _ IH|x y l|l1 l2 l3 _ IH1 _ IH2]; simpl; lia.
Qed.

Lemma downloads_of_users_insert key u us :
  us !! key = None ->
  downloads_of_users (<[key := u]> us) = u_download_count u + downloads_of_users us.
Proof.
  intros Hkey. unfold downloads_of_users.
  rewrite map_fold_insert_L; [done| |done]. intros. lia.
Qed.

Lemma downloads_of_users_update key u u' us :
  us !! key = Some u ->
  downloads_of_users (<[key := u']> us)
  = downloads_of_users us - u_download_count u + u_download_count u'.
Proof.
  intros Hkey.
  assert (downloads_of_users us
          = u_download_count u + downloads_of_users (delete key us)) as ->.
  { rewrite <- (insert_delete_id us key u Hkey) at 1.
    apply downloads_of_users_insert, lookup_delete_eq. }
  rewrite <- insert_delete_eq, downloads_of_users_insert
    by apply lookup_delete_eq.
  lia.
Qed.

Lemma values_of_users us :
  (map_to_list (dict_of_user <$> us)).*2
  ≡ₚ dict_of_user <$> (map_to_list us).*2.
Proof.
  rewrite map_to_list_fmap, <- !list_fmap_compose. done.
Qed.

Lemma sum_counts_users us :
  sum_counts (dict_of_user <$> (map_to_list us).*2) = downloads_of_users us.
Proof.
  induction us as [|key u us Hkey IH] using map_ind.
  - by rewrite map_to_list_empty.
  - rewrite downloads_of_users_insert by done.
    rewrite (sum_counts_perm _
               (dict_of_user u :: (dict_of_user <$> (map_to_list us).*2))).
    + rewrite sum_counts_cons, IH. done.
    + by rewrite map_to_list_insert.
Qed.

Lemma sum_download_count_values us acc :
  sum_download_count (map_to_list (dict_of_user <$> us)).*2 acc
  = Ret (acc + downloads_of_users us).
Proof.
  pose proof (values_of_users us) as Hperm.
  apply Permutation_map_inv in Hperm as (records & Heq & Hperm).
  change (map dict_of_user records) with (dict_of_user <$> records) in Heq.
  rewrite Heq, sum_download_count_users, <- Heq.
  by rewrite (sum_counts_perm _ _ (values_of_users us)), sum_counts_users.
Qed.

Lemma compute_totals_shape s :
  compute_totals (dict_of_store s)
  = Ret (mkTotals (Z.of_nat (size (st_users s)))
                  (downloads_of_users (st_users s))
                  (VInt (st_ar_downloads s)) (VInt (st_en_downloads s))
                  (VStr (st_version s)) (VStr (st_start_date s))).
Proof.
  unfold compute_totals.
  change (dict_get (dict_of_store s) "users" (VDict ∅))
    with (Ret (VDict (dict_of_user <$> st_users s))).
  simpl mbind. change (outcome_bind ?A ?B ?f (Ret ?a)) with (f a).
  unfold mbind. rewrite sum_download_count_values. simpl.
  by rewrite map_size_fmap.
Qed.

Lemma never_set_unknown user_id data :
  reachable_when (never_set user_id) data ->
  ∃ s, data = dict_of_store s ∧ st_users s !! py_str user_id = None.
Proof.
  induction 1 as [now|o data data' _ (s & -> & Hs) Hallowed Hstep].
  - by exists (initial_store now).
  - destruct o as [now user_id' language|user_id' language]; simpl in *.
    + rewrite set_user_lang_update_shape in Hstep. injection Hstep as <-.
      eexists; split; [done|]. simpl. rewrite lookup_insert_ne; [done|].
      intros Heq. by apply py_str_inj in Heq.
    + rewrite record_download_update_shape in Hstep. injection Hstep as <-.
      eexists; split; [done|].
      unfold count_user.
      replace (st_users (count_language language s)) with (st_users s)
        by (unfold count_language; by repeat case_bool_decide).
      destruct (st_users s !! py_str user_id') as [u|] eqn:Hu; simpl.
      * rewrite lookup_insert_ne; [|congruence].
        unfold count_language; by repeat case_bool_decide.
      * unfold count_language; by repeat case_bool_decide.
Qed.

Lemma count_language_users language s :
  st_users (count_language language s) = st_users s.
Proof. unfold count_language. by repeat case_bool_decide. Qed.

Lemma counted_reachable_balanced data :
  reachable_when counted_download data ->
  ∃ s, data = dict_of_store s ∧
       downloads_of_users (st_users s) = st_ar_downloads s + st_en_downloads s.
Proof.
  induction 1 as [now|o data data' _ (s & -> & Hbal) Hallowed Hstep].
  - by exists (initial_store now).
  - destruct o as [now user_id language|user_id language]; simpl in Hstep.
    + rewrite set_user_lang_update_shape in Hstep. injection Hstep as <-.
      eexists; split; [done|]. simpl.
      destruct (st_users s !! py_str user_id) as [u|] eqn:Hu; simpl.
      * rewrite (downloads_of_users_update _ u) by done. simpl. lia.
      * rewrite downloads_of_users_insert by done. simpl. lia.
    + rewrite record_download_update_shape in Hstep. injection Hstep as <-.
      destruct Hallowed as [Hlanguage Hknown].
      rewrite getitem_users in Hknown.
      change (contains (py_str user_id) (VDict (dict_of_user <$> st_users s))
              = Ret true) in Hknown.
      rewrite contains_users in Hknown. injection Hknown as Hknown.
      apply bool_decide_eq_true in Hknown as [u Hu].
      eexists; split; [done|]. unfold count_user.
      rewrite count_language_users, Hu. simpl.
      rewrite (downloads_of_users_update _ u) by done.
      unfold count_language.
      destruct Hlanguage as [-> | ->]; simpl; lia.
Qed.

End Stores.

(** ** Running handlers *)

Section Handlers.
Context `{Env}.
Implicit Types (w : World) (s : Store) (data : value).

Lemma run_bind_ret {A B} (c : M A) (k : A -> M B) w a w' :
  c w = (Ret a, w') -> (c ≫= k) w = k a w'.
Proof. intros Hc. unfold mbind, M_bind. by rewrite Hc. Qed.

Lemma run_bind_raise {A B} (c : M A) (k : A -> M B) w e w' :
  c w = (Raise e, w') -> (c ≫= k) w = (Raise e, w').
Proof. intros Hc. unfold mbind, M_bind. by rewrite Hc. Qed.

Lemma run_lift {A} (c : outcome A) w : lift c w = (c, w).
Proof. reflexivity. Qed.

(** [load_data] only reads. *)
Lemma load_data_reads w : (load_data w).2 = w.
Proof.
  unfold load_data, try_except, read_data_file, mbind, M_bind.
  destruct (w_data_file w) as [c|]; [|done].
  unfold lift, json_load.
  destruct (json_loads c) as [data|]; [|by destruct (json_load_error c)].
  destruct (contains "global_stats" data) as [[]|[]]; simpl; try done.
  by destruct (setitem data "global_stats" zero_stats) as [data'|[]].
Qed.

Lemma load_data_absent w :
  w_data_file w = None -> load_data w = (Ret (initial_data (w_now w)), w).
Proof.
  intros Hfile. unfold load_data, try_except, read_data_file, mbind, M_bind.
  by rewrite Hfile.
Qed.

Lemma load_data_corrupt w c :
  w_data_file w = Some c -> json_loads c = None ->
  json_load_error c = JSONDecodeError ->
  load_data w = (Ret (initial_data (w_now w)), w).
Proof.
  intros Hfile Hc Herror.
  unfold load_data, try_except, read_data_file, mbind, M_bind, lift, json_load.
  by rewrite Hfile, Hc, Herror.
Qed.

(** An error of [json.load] that the [except] clause does not name
    leaves [load_data] as it is. *)
Lemma load_data_uncaught w c e :
  w_data_file w = Some c -> json_loads c = None ->
  json_load_error c = e -> e ≠ FileNotFoundError -> e ≠ JSONDecodeError ->
  load_data w = (Raise e, w).
Proof.
  intros Hfile Hc Herror Hfound Hdecode.
  unfold load_data, try_except, read_data_file, mbind, M_bind, lift, json_load.
  rewrite Hfile, Hc, Herror. by destruct e.
Qed.

Lemma load_data_document w c s :
  w_data_file w = Some c -> json_loads c = Some (dict_of_store s) ->
  load_data w = (Ret (dict_of_store s), w).
Proof.
  intros Hfile Hc.
  unfold load_data, try_except, read_data_file, mbind, M_bind, lift, json_load.
  by rewrite Hfile, Hc.
Qed.

Lemma load_data_saved w s :
  codec_roundtrip ->
  load_data (with_data_file w (json_dumps (dict_of_store s)))
  = (Ret (dict_of_store s), with_data_file w (json_dumps (dict_of_store s))).
Proof. intros Hrt. by apply (load_data_document _ (json_dumps (dict_of_store s))). Qed.

Lemma run_get_user_lang w s user_id :
  load_data w = (Ret (dict_of_store s), w) ->
  get_user_lang user_id w
  = (Ret (VStr (default "en" (u_lang <$> st_users s !! py_str user_id))), w).
Proof.
  intros Hload. unfold get_user_lang.
  rewrite (run_bind_ret _ _ _ _ _ Hload), getitem_users.
  unfold mbind, M_bind, lift. simpl. rewrite lookup_fmap.
  by destruct (st_users s !! py_str user_id).
Qed.

Lemma run_set_user_lang w s user_id language :
  load_data w = (Ret (dict_of_store s), w) ->
  set_user_lang user_id (VStr language) w
  = (Ret tt,
     with_data_file w (json_dumps (dict_of_store (with_users s
       (<[py_str user_id :=
            relabelled (w_now w) language (st_users s !! py_str user_id)]>
          (st_users s)))))).
Proof.
  intros Hload. unfold set_user_lang.
  rewrite (run_bind_ret _ _ _ _ _ Hload).
  unfold mbind at 1, M_bind, datetime_now.
  by rewrite set_user_lang_update_shape.
Qed.

Lemma run_record_download w s user_id language :
  load_data w = (Ret (dict_of_store s), w) ->
  record_download user_id (VStr language) w
  = (Ret tt,
     with_data_file w (json_dumps (dict_of_store
       (count_user (py_str user_id) (count_language language s))))).
Proof.
  intros Hload. unfold record_download.
  rewrite (run_bind_ret _ _ _ _ _ Hload).
  by rewrite record_download_update_shape.
Qed.

(** *** What a handler leaves alone *)

Section Frame.
Context {X : Type} (f : World -> X).

Lemma preserves_ret {A} (a : A) : preserves f (mret a).
Proof. by intros w. Qed.

Lemma preserves_lift {A} (c : outcome A) : preserves f (lift c).
Proof. by intros w. Qed.

Lemma preserves_bind {A B} (c : M A) (k : A -> M B) :
  preserves f c -> (∀ a, preserves f (k a)) -> preserves f (c ≫= k).
Proof.
  intros Hc Hk w. unfold mbind, M_bind. specialize (Hc w).
  destruct (c w) as [[a|e] w']; simpl in *; [|done].
  by rewrite Hk.
Qed.

Lemma preserves_try_except {A} (body : M A) catches handler :
  preserves f body -> (∀ e, preserves f (handler e)) ->
  preserves f (try_except body catches handler).
Proof.
  intros Hbody Hhandler w. unfold try_except. specialize (Hbody w).
  destruct (body w) as [[a|e] w']; simpl in *; [done|].
  destruct (catches e); [|done]. by rewrite Hhandler.
Qed.

Lemma preserves_try_finally {A} (body : M A) final :
  preserves f body -> preserves f final ->
  preserves f (try_finally body final).
Proof.
  intros Hbody Hfinal w. unfold try_finally. specialize (Hbody w).
  destruct (body w) as [r w']. specialize (Hfinal w').
  destruct (final w') as [[[]|e] w'']; simpl in *; congruence.
Qed.

Lemma preserves_load_data : preserves f load_data.
Proof. intros w. by rewrite load_data_reads. Qed.

Lemma preserves_datetime_now : preserves f datetime_now.
Proof. by intros w. Qed.

Lemma preserves_path_exists file : preserves f (path_exists file).
Proof. by intros w. Qed.

Lemma preserves_get_user_lang user_id : preserves f (get_user_lang user_id).
Proof.
  unfold get_user_lang.
  repeat (apply preserves_bind; [|intros ?]); try apply preserves_lift.
  apply preserves_load_data.
Qed.

End Frame.

Create HintDb frame.

#[local] Hint Resolve preserves_ret preserves_lift preserves_load_data
  preserves_datetime_now preserves_path_exists preserves_get_user_lang
  : frame.

Ltac frame_step :=
  lazymatch goal with
  | |- preserves _ (mbind _ _) => apply preserves_bind; [|intros ?]
  | |- preserves _ (try_except _ _ _) => apply preserves_try_except; [|intros ?]
  | |- preserves _ (try_finally _ _) => apply preserves_try_finally
  | |- preserves _ (if ?b then _ else _) => destruct b
  end.

Ltac frame := repeat frame_step; auto with frame.

Lemma bot_keeps_data_file c : preserves w_data_file (bot c).
Proof. by intros w. Qed.
Lemma bot_keeps_media c : preserves w_media (bot c).
Proof. by intros w. Qed.
Lemma bot_keeps_log c : preserves w_log (bot c).
Proof. by intros w. Qed.
Lemma logger_keeps_data_file r : preserves w_data_file (logger_error r).
Proof. by intros w. Qed.
Lemma logger_keeps_media r : preserves w_media (logger_error r).
Proof. by intros w. Qed.
Lemma save_keeps_media data : preserves w_media (save_data data).
Proof. by intros w. Qed.
Lemma extract_keeps_data_file url file : preserves w_data_file (ydl_extract url file).
Proof.
  intros w. unfold ydl_extract.
  by destruct (extract_info url file) as [[info|[]] []], (written_later url file).
Qed.
Lemma remove_keeps_data_file file : preserves w_data_file (os_remove file).
Proof.
  intros w. unfold os_remove. case_bool_decide; [|done].
  by destruct (remove_error file).
Qed.

Lemma bot_keeps_now c : preserves w_now (bot c).
Proof. by intros w. Qed.
Lemma logger_keeps_now r : preserves w_now (logger_error r).
Proof. by intros w. Qed.
Lemma save_keeps_now data : preserves w_now (save_data data).
Proof. by intros w. Qed.
Lemma extract_keeps_now url file : preserves w_now (ydl_extract url file).
Proof.
  intros w. unfold ydl_extract.
  by destruct (extract_info url file) as [[info|[]] []], (written_later url file).
Qed.
Lemma remove_keeps_now file : preserves w_now (os_remove file).
Proof.
  intros w. unfold os_remove. case_bool_decide; [|done].
  by destruct (remove_error file).
Qed.

Lemma bot_keeps_workers c : preserves w_workers (bot c).
Proof. by intros w. Qed.
Lemma logger_keeps_workers r : preserves w_workers (logger_error r).
Proof. by intros w. Qed.
Lemma save_keeps_workers data : preserves w_workers (save_data data).
Proof. by intros w. Qed.
Lemma remove_keeps_workers file : preserves w_workers (os_remove file).
Proof.
  intros w. unfold os_remove. case_bool_decide; [|done].
  by destruct (remove_error file).
Qed.

(** The wait leaves no thread behind when it ends with the thread, or
    is cancelled with a thread that writes nothing more. *)
Lemma extract_keeps_workers url file :
  (∀ written, extract_info url file = (Raise CancelledError, written) ->
              written_later url file = false) ->
  preserves w_workers (ydl_extract url file).
Proof.
  intros Hwait w. unfold ydl_extract.
  destruct (extract_info url file) as [[info|e] written] eqn:Hextract;
    [by destruct written|].
  destruct e; try (by destruct written).
  rewrite (Hwait written eq_refl). by destruct written.
Qed.

#[local] Hint Resolve bot_keeps_now logger_keeps_now save_keeps_now
  extract_keeps_now remove_keeps_now : frame.

#[local] Hint Resolve bot_keeps_workers logger_keeps_workers
  save_keeps_workers remove_keeps_workers : frame.

#[local] Hint Resolve bot_keeps_data_file bot_keeps_media bot_keeps_log
  logger_keeps_data_file logger_keeps_media save_keeps_media
  extract_keeps_data_file remove_keeps_data_file : frame.

Lemma cleanup_keeps_data_file file : preserves w_data_file (cleanup file).
Proof. unfold cleanup. frame. Qed.

Lemma download_failed_keeps_data_file lang e :
  preserves w_data_file (download_failed lang e).
Proof. unfold download_failed. frame. Qed.

Lemma download_failed_keeps_media lang e :
  preserves w_media (download_failed lang e).
Proof. unfold download_failed. frame. Qed.

Lemma record_download_keeps_media user_id lang :
  preserves w_media (record_download user_id lang).
Proof. unfold record_download. frame. Qed.

(** *** The download handler *)

Lemma bind_after {X A B} (f : World -> X) (c : M A) (k : A -> M B) w :
  (∀ a, preserves f (k a)) -> f ((c ≫= k) w).2 = f (c w).2.
Proof.
  intros Hk. unfold mbind, M_bind.
  destruct (c w) as [[a|e] w']; simpl; [apply Hk|done].
Qed.

Lemma try_except_after {X A} (f : World -> X) (body : M A) catches handler w :
  (∀ e, preserves f (handler e)) ->
  f (try_except body catches handler w).2 = f (body w).2.
Proof.
  intros Hhandler. unfold try_except.
  destruct (body w) as [[a|e] w']; simpl; [done|].
  destruct (catches e); [apply Hhandler|done].
Qed.

Lemma try_finally_world {A} (body : M A) final w :
  (try_finally body final w).2 = (final (body w).2).2.
Proof.
  unfold try_finally. destruct (body w) as [r w']; simpl.
  by destruct (final w') as [[[]|e] w''].
Qed.

Lemma same_files_refl w : same_files w w.
Proof. done. Qed.

Lemma same_files_bot c w : same_files w (bot c w).2.
Proof. done. Qed.

(** Up to the [try] statement the handler reads the data file and talks
    to the API: it stops there with files and log untouched, or enters
    the [try] statement in such a world. *)
Lemma download_media_cases file update w :
  same_files w (download_media file update w).2 ∨
  ∃ url lang w1,
    message_text update = Some url ∧ same_files w w1 ∧
    download_media file update w
    = try_finally
        (try_except (download_body file url (effective_user_id update) lang)
                    is_Exception (download_failed lang))
        (cleanup file) w1.
Proof.
  unfold download_media.
  destruct (message_text update) as [[|ch url]|]; [by left| |by left].
  pose proof (preserves_get_user_lang id (effective_user_id update) w) as Hw.
  destruct (get_user_lang (effective_user_id update) w) as [[lang|e] w0]
    eqn:Hlang; simpl in Hw; subst w0.
  2: { left. by rewrite (run_bind_raise _ _ _ _ _ Hlang). }
  rewrite (run_bind_ret _ _ _ _ _ Hlang).
  destruct (TEXTS lang "downloading") as [downloading|e].
  2: { left. by rewrite (run_bind_raise (lift (Raise e)) _ w e w eq_refl). }
  rewrite (run_bind_ret (lift (Ret downloading)) _ w downloading w eq_refl).
  pose proof (same_files_bot (ReplyText downloading) w) as Hfiles.
  destruct (bot (ReplyText downloading) w) as [[[]|e] w1] eqn:Hbot.
  - rewrite (run_bind_ret _ _ _ _ _ Hbot).
    right. by exists (String ch url), lang, w1.
  - rewrite (run_bind_raise _ _ _ _ _ Hbot). by left.
Qed.

Lemma download_body_media file url user_id lang w :
  w_media (download_body file url user_id lang w).2 = w_media w ∨
  w_media (download_body file url user_id lang w).2 = {[file]} ∪ w_media w.
Proof.
  unfold download_body. rewrite bind_after.
  - unfold ydl_extract.
    destruct (extract_info url file) as [[info|[]] []], (written_later url file);
      auto.
  - intros info. frame; unfold record_download; frame.
Qed.

Lemma cleanup_tidy file before w :
  file ∉ before ->
  w_media w = before ∨ w_media w = {[file]} ∪ before ->
  tidy_after file before (cleanup file w).2.
Proof.
  intros Hfresh Hmedia.
  unfold tidy_after, cleanup, path_exists, mbind, M_bind, try_except, os_remove.
  destruct (decide (file ∈ w_media w)) as [Hin|Hin].
  - rewrite !bool_decide_eq_true_2 by done.
    assert (w_media w = {[file]} ∪ before) as Hw
      by (destruct Hmedia as [Hw|Hw]; [rewrite Hw in Hin|]; done).
    destruct (remove_error file) as [e|]; simpl.
    + right. destruct (is_Exception e) eqn:He; simpl.
      * split; [done|]. intros _. apply last_snoc.
      * split; [done|]. done.
    + rewrite Hw. apply set_eq. intros x.
      rewrite elem_of_difference, elem_of_union, elem_of_singleton.
      split; [by intros [[->|Hx] Hne]|].
      intros Hx. split; [by right|]. by intros ->.
  - rewrite !bool_decide_eq_false_2 by done.
    assert (w_media w = before) as Hw
      by (destruct Hmedia as [Hw|Hw]; [done|];
          exfalso; apply Hin; rewrite Hw; apply elem_of_union_l, elem_of_singleton;
          reflexivity).
    destruct (remove_error file) as [e|]; simpl; auto.
Qed.

Lemma download_media_tidy file update w :
  file ∉ w_media w ->
  tidy_after file (w_media w) (download_media file update w).2.
Proof.
  intros Hfresh.
  destruct (download_media_cases file update w)
    as [(_ & Hmedia & _)|(url & lang & w1 & _ & (_ & Hmedia & _) & ->)].
  - unfold tidy_after. destruct (remove_error file); auto.
  - rewrite try_finally_world, <- Hmedia.
    apply cleanup_tidy; [by rewrite Hmedia|].
    rewrite try_except_after by apply download_failed_keeps_media.
    apply download_body_media.
Qed.

Lemma failed_body_keeps_data_file file url user_id lang w :
  extraction_failed file url w ->
  w_data_file (download_body file url user_id lang w).2 = w_data_file w.
Proof.
  unfold download_body, mbind, M_bind, ydl_extract, path_exists.
  intros [(e & written & ->)|(info & -> & Hfresh)].
  - by destruct e, written, (written_later url file).
  - by rewrite bool_decide_eq_false_2.
Qed.

(** *** The broadcast loop *)

Lemma broadcast_loop_run body user_ids : ∀ sent_count error_count w,
  (∀ history c e, telegram history c = Raise e -> is_Exception e = true) ->
  let results := send_results (w_calls w) body user_ids in
  ∃ w',
    broadcast_loop body user_ids sent_count error_count w
    = (Ret (sent_count + count_if succeeded results,
            error_count + count_if failed results),
       w') ∧
    w_calls w' = w_calls w ++ ((fun user_id => SendMessage user_id body) <$> user_ids) ∧
    w_data_file w' = w_data_file w ∧ w_media w' = w_media w.
Proof.
  induction user_ids as [|user_id rest IH]; intros sent_count error_count w Hexc.
  - exists w. simpl. by rewrite !Z.add_0_r, app_nil_r.
  - simpl send_results. cbv zeta.
    destruct (telegram (w_calls w) (SendMessage user_id body)) as [[]|e] eqn:Hsend.
    + set (w1 := (bot (SendMessage user_id body) w).2).
      destruct (IH (sent_count + 1) error_count w1 Hexc) as (w' & Hrun & Hcalls & Hfile & Hmedia).
      exists w'. split; [|split; [|split]].
      * simpl broadcast_loop.
        unfold mbind at 1, M_bind at 1, try_except, bot, asyncio_sleep.
        unfold mbind at 1, M_bind at 1. rewrite Hsend. simpl.
        etrans; [exact Hrun|]. f_equal. f_equal.
        unfold failed. simpl. f_equal; lia.
      * rewrite Hcalls. simpl. by rewrite <- app_assoc.
      * by rewrite Hfile.
      * by rewrite Hmedia.
    + set (w1 := (logger_error (BroadcastError user_id e)
                    (bot (SendMessage user_id body) w).2).2).
      destruct (IH sent_count (error_count + 1) w1 Hexc) as (w' & Hrun & Hcalls & Hfile & Hmedia).
      exists w'. split; [|split; [|split]].
      * simpl broadcast_loop.
        unfold mbind at 1, M_bind at 1, try_except, bot.
        unfold mbind at 1, M_bind at 1. rewrite Hsend.
        rewrite (Hexc _ _ _ Hsend). simpl.
        etrans; [exact Hrun|]. f_equal. f_equal.
        unfold failed. simpl. f_equal; lia.
      * rewrite Hcalls. simpl. by rewrite <- app_assoc.
      * by rewrite Hfile.
      * by rewrite Hmedia.
Qed.

Lemma send_results_length history body user_ids :
  length (send_results history body user_ids) = length user_ids.
Proof.
  revert history. induction user_ids as [|user_id rest IH]; intros history;
    simpl; [done|]. by rewrite IH.
Qed.

Lemma count_if_split {A} (p : A -> bool) (l : list A) :
  count_if p l + count_if (fun x => negb (p x)) l = Z.of_nat (length l).
Proof.
  induction l as [|x l IH]; [done|].
  simpl count_if. rewrite length_cons. destruct (p x); simpl; lia.
Qed.

Lemma download_media_keeps_now file update :
  preserves w_now (download_media file update).
Proof.
  unfold download_media.
  destruct (message_text update) as [[|ch url]|]; [frame| |frame].
  unfold download_body, download_failed, cleanup, record_download. frame.
Qed.

Lemma download_media_keeps_workers file update :
  (∀ url written, message_text update = Some url ->
     extract_info url file = (Raise CancelledError, written) ->
     written_later url file = false) ->
  preserves w_workers (download_media file update).
Proof.
  intros Hwait. unfold download_media.
  destruct (message_text update) as [[|ch url]|]; [frame| |frame].
  pose proof (extract_keeps_workers (String ch url) file
                (fun written => Hwait _ written eq_refl)) as Hextract.
  unfold download_body, download_failed, cleanup, record_download. frame.
Qed.

Lemma load_data_ext w w' :
  w_data_file w' = w_data_file w -> w_now w' = w_now w ->
  (load_data w').1 = (load_data w).1.
Proof.
  intros Hfile Hnow.
  unfold load_data, try_except, read_data_file, mbind, M_bind.
  rewrite Hfile. destruct (w_data_file w) as [c|]; simpl; [|by rewrite Hnow].
  unfold lift, json_load. destruct (json_loads c) as [data|]; simpl;
    [|by destruct (json_load_error c); simpl; rewrite ?Hnow].
  destruct (contains "global_stats" data) as [[]|[]]; simpl; try done;
    try (by rewrite Hnow).
  destruct (setitem data "global_stats" zero_stats) as [data'|[]]; simpl;
    try done; by rewrite Hnow.
Qed.

Lemma stats_command_same_files update w :
  same_files w (stats_command update w).2.
Proof.
  repeat split.
  - assert (preserves w_data_file (stats_command update)) as Hp
      by (unfold stats_command; frame). apply Hp.
  - assert (preserves w_media (stats_command update)) as Hp
      by (unfold stats_command; frame). apply Hp.
  - assert (preserves w_log (stats_command update)) as Hp
      by (unfold stats_command; frame). apply Hp.
Qed.

End Handlers.

(** * The claims *)

(** C3.  Loading what [save_data] wrote gives back the store that was
    saved, for every store reachable from the initial one (the initial
    one included), provided the JSON codec itself round-trips. *)
Theorem load_after_save `{Env} (data : value) (w : World) :
  codec_roundtrip ->
  reachable data ->
  ∃ w', save_data data w = (Ret tt, w') ∧ load_data w' = (Ret data, w').
Proof.
  intros Hrt [s ->]%reachable_when_shape.
  eexists; split; [reflexivity|]. by apply load_data_saved.
Qed.

Lemma load_after_save_witness :
  @codec_roundtrip fair_weather ∧ reachable (initial_data "2024-05-01") ∧
  ∃ w', @save_data fair_weather (initial_data "2024-05-01")
          (@fresh_world fair_weather "2024-05-02") = (Ret tt, w') ∧
        load_data w' = (Ret (initial_data "2024-05-01"), w').
Proof.
  assert (Hrt : @codec_roundtrip fair_weather) by (intros v; reflexivity).
  assert (Hreach : reachable (initial_data "2024-05-01"))
    by apply reachable_initial.
  split; [exact Hrt|]. split; [exact Hreach|].
  exact (@load_after_save fair_weather _ _ Hrt Hreach).
Defined.

(** C4.  The claim fails on a corrupt file of one kind.  On a data file
    whose bytes are not text in the encoding of the locale, [json.load]
    raises [UnicodeDecodeError]; the [except] clause of [load_data] names
    [FileNotFoundError] and [JSONDecodeError] only, so [load_data] raises
    instead of returning a fresh store, and so does [get_user_lang], with
    which the handlers start. *)
Theorem load_data_undecodable_file `{Env} (w : World) (c : text) :
  w_data_file w = Some c ->
  json_loads c = None ->
  json_load_error c = UnicodeDecodeError ->
  load_data w = (Raise UnicodeDecodeError, w) ∧
  ∀ user_id, get_user_lang user_id w = (Raise UnicodeDecodeError, w).
Proof.
  intros Hfile Hc Herror.
  assert (Hload : load_data w = (Raise UnicodeDecodeError, w))
    by by apply (load_data_uncaught w c).
  split; [exact Hload|].
  intros user_id. unfold get_user_lang.
  by rewrite (run_bind_raise _ _ _ _ _ Hload).
Qed.

Lemma load_data_undecodable_file_witness :
  let w := @mkWorld any_file (Some NotText) ∅ [] [] "2024-05-01" ∅ in
  w_data_file w = Some NotText ∧
  @json_loads any_file NotText = None ∧
  @json_load_error any_file NotText = UnicodeDecodeError ∧
  load_data w = (Raise UnicodeDecodeError, w) ∧
  ∀ user_id, get_user_lang user_id w = (Raise UnicodeDecodeError, w).
Proof.
  intros w.
  assert (Hfile : w_data_file w = Some NotText) by reflexivity.
  assert (Hc : @json_loads any_file NotText = None) by reflexivity.
  assert (Herror : @json_load_error any_file NotText = UnicodeDecodeError)
    by reflexivity.
  split; [exact Hfile|]. split; [exact Hc|]. split; [exact Herror|].
  exact (@load_data_undecodable_file any_file w NotText Hfile Hc Herror).
Defined.

(** A file that holds a JSON document of another shape is not corrupt:
    [load_data] hands the document on, or raises on it as here. *)
Lemma load_data_other_document :
  let w := @mkWorld fair_weather (Some (Some (VList []))) ∅ [] [] "2024-05-01" ∅ in
  load_data w = (Raise TypeError, w).
Proof. reflexivity. Qed.

(** C5.  On a store of the bot's shape, [set_user_lang] for an unknown
    user creates the record (first_seen = now, the language given,
    download_count = 0); for a known user it replaces the language and
    keeps first_seen and download_count.  Every other user, the system
    entry and the global counters are as before. *)
Theorem set_user_lang_creates_then_relabels `{Env}
    (w : World) (s : Store) (user_id : Z) (language : string) :
  load_data w = (Ret (dict_of_store s), w) ->
  let key := py_str user_id in
  ∃ s',
    set_user_lang user_id (VStr language) w
    = (Ret tt, with_data_file w (json_dumps (dict_of_store s'))) ∧
    (st_users s !! key = None ->
     st_users s' !! key = Some (mkUser (w_now w) language 0)) ∧
    (∀ u, st_users s !! key = Some u ->
     st_users s' !! key
     = Some (mkUser (u_first_seen u) language (u_download_count u))) ∧
    (∀ key', key' ≠ key -> st_users s' !! key' = st_users s !! key') ∧
    st_version s' = st_version s ∧
    st_start_date s' = st_start_date s ∧
    st_ar_downloads s' = st_ar_downloads s ∧
    st_en_downloads s' = st_en_downloads s.
Proof.
  intros Hload key.
  eexists. split; [by apply run_set_user_lang|]. simpl.
  fold key. repeat split.
  - intros ->. by rewrite lookup_insert_eq.
  - intros u ->. by rewrite lookup_insert_eq.
  - intros key' Hne. by rewrite lookup_insert_ne.
Qed.

Lemma set_user_lang_creates_then_relabels_witness :
  let w := @fresh_world fair_weather "2024-05-01" in
  let s := initial_store "2024-05-01" in
  load_data w = (Ret (dict_of_store s), w) ∧
  ∃ s',
    set_user_lang 42 (VStr "ar") w
    = (Ret tt, with_data_file w (json_dumps (dict_of_store s'))) ∧
    (st_users s !! py_str 42 = None ->
     st_users s' !! py_str 42 = Some (mkUser (w_now w) "ar" 0)) ∧
    (∀ u, st_users s !! py_str 42 = Some u ->
     st_users s' !! py_str 42
     = Some (mkUser (u_first_seen u) "ar" (u_download_count u))) ∧
    (∀ key', key' ≠ py_str 42 -> st_users s' !! key' = st_users s !! key') ∧
    st_version s' = st_version s ∧
    st_start_date s' = st_start_date s ∧
    st_ar_downloads s' = st_ar_downloads s ∧
    st_en_downloads s' = st_en_downloads s.
Proof.
  intros w s.
  assert (Hload : load_data w = (Ret (dict_of_store s), w)) by reflexivity.
  split; [exact Hload|].
  exact (@set_user_lang_creates_then_relabels fair_weather w s 42 "ar" Hload).
Defined.

(** C6.  [get_user_lang] never changes the world.  On a store of the
    bot's shape it returns the stored language of a user who has a record
    and "en" for a user who has none; a user never passed to
    [set_language] has none. *)
Theorem get_user_lang_reads_language `{Env}
    (w : World) (s : Store) (user_id : Z) :
  load_data w = (Ret (dict_of_store s), w) ->
  (∀ w0 : World, (get_user_lang user_id w0).2 = w0) ∧
  (∀ u, st_users s !! py_str user_id = Some u ->
     get_user_lang user_id w = (Ret (VStr (u_lang u)), w)) ∧
  (st_users s !! py_str user_id = None ->
     get_user_lang user_id w = (Ret (VStr "en"), w)) ∧
  (reachable_when (never_set user_id) (dict_of_store s) ->
     get_user_lang user_id w = (Ret (VStr "en"), w)).
Proof.
  intros Hload. split; [|repeat split].
  - intros w0. unfold get_user_lang, mbind, M_bind.
    pose proof (load_data_reads w0) as Hreads.
    destruct (load_data w0) as [[data|e] w1]; simpl in *; subst w1; [|done].
    unfold lift. destruct (getitem data "users") as [users|e]; [|done].
    by destruct (dict_get users (py_str user_id) (VDict ∅)) as [user|e].
  - intros u Hu. by rewrite (run_get_user_lang w s), Hu.
  - intros Hu. by rewrite (run_get_user_lang w s), Hu.
  - intros (s' & Heq & Hu)%never_set_unknown.
    rewrite Heq in Hload. by rewrite (run_get_user_lang w s'), Hu.
Qed.

Lemma get_user_lang_reads_language_witness :
  let w := (@set_user_lang fair_weather 42 (VStr "ar")
              (@fresh_world fair_weather "2024-05-01")).2 in
  let s := mkStore {[ "42" := mkUser "2024-05-01" "ar" 0 ]}
                   "3.1" "2024-05-01" 0 0 in
  load_data w = (Ret (dict_of_store s), w) ∧
  get_user_lang 42 w = (Ret (VStr "ar"), w) ∧
  get_user_lang 43 w = (Ret (VStr "en"), w).
Proof.
  intros w s.
  assert (Hload : load_data w = (Ret (dict_of_store s), w)) by reflexivity.
  split; [exact Hload|].
  pose proof (@get_user_lang_reads_language fair_weather w s 42 Hload)
    as (_ & Hknown & _ & _).
  pose proof (@get_user_lang_reads_language fair_weather w s 43 Hload)
    as (_ & _ & Hunknown & _).
  split.
  - exact (Hknown (mkUser "2024-05-01" "ar" 0) eq_refl).
  - exact (Hunknown eq_refl).
Defined.

(** C1, amended.  In every store reached from the initial one by
    [set_language] and [record_download] operations in which every
    download is recorded for a user who has a record, in language "ar" or
    "en", the sum of the users' download counts equals the sum of the two
    global counters. *)
Theorem counted_downloads_mirrored (data : value) :
  reachable_when counted_download data -> counters_mirrored data.
Proof.
  intros (s & -> & Hbal)%counted_reachable_balanced.
  eexists _, (st_ar_downloads s), (st_en_downloads s).
  split; [apply compute_totals_shape|]. by simpl.
Qed.

Lemma counted_downloads_mirrored_witness :
  let data := dict_of_store
    (mkStore {[ "42" := mkUser "2024-05-01" "ar" 1 ]} "3.1" "2024-05-01" 1 0) in
  reachable_when counted_download data ∧ counters_mirrored data.
Proof.
  intros data.
  assert (Hreach : reachable_when counted_download data).
  { eapply (reachable_step _ (RecordDownload 42 "ar")
              (dict_of_store (mkStore {[ "42" := mkUser "2024-05-01" "ar" 0 ]}
                                      "3.1" "2024-05-01" 0 0))).
    - eapply (reachable_step _ (SetLanguage "2024-05-01" 42 "ar")).
      + apply (reachable_initial _ "2024-05-01").
      + exact I.
      + reflexivity.
    - split; [by left|reflexivity].
    - reflexivity. }
  split; [exact Hreach|].
  exact (counted_downloads_mirrored data Hreach).
Defined.

(** C1 as stated fails: a download recorded for a user without a record
    raises the "en" counter and no download count. *)
Lemma unregistered_download_unmirrored :
  let data := dict_of_store (mkStore ∅ "3.1" "2024-05-01" 0 1) in
  apply_op (RecordDownload 7 "en") (initial_data "2024-05-01") = Ret data ∧
  reachable data ∧
  ¬ counters_mirrored data.
Proof.
  intros data. split; [reflexivity|]. split.
  - eapply (reachable_step _ (RecordDownload 7 "en")).
    + apply (reachable_initial _ "2024-05-01").
    + exact I.
    + reflexivity.
  - intros (t & a & e & Ht & Ha & He & Hsum).
    unfold data in Ht. rewrite compute_totals_shape in Ht.
    injection Ht as <-. simpl in Ha, He, Hsum.
    injection Ha as <-. injection He as <-. discriminate Hsum.
Qed.

(** The other way round: a download recorded in a language without a
    counter raises the user's count and no global counter. *)
Lemma uncounted_language_unmirrored :
  let data := dict_of_store
    (mkStore {[ "42" := mkUser "2024-05-01" "fr" 1 ]} "3.1" "2024-05-01" 0 0) in
  (data1 ← apply_op (SetLanguage "2024-05-01" 42 "fr") (initial_data "2024-05-01");
   apply_op (RecordDownload 42 "fr") data1) = Ret data ∧
  ¬ counters_mirrored data.
Proof.
  intros data. split; [reflexivity|].
  intros (t & a & e & Ht & Ha & He & Hsum).
  unfold data in Ht. rewrite compute_totals_shape in Ht.
  injection Ht as <-. simpl in Ha, He, Hsum.
  injection Ha as <-. injection He as <-. discriminate Hsum.
Qed.

(** The same through the handler: user 7 never sent /start, so there is
    no record to count the download on, and [get_user_lang] answers "en",
    whose counter goes up. *)
Lemma unregistered_user_download :
  let w := @fresh_world fair_weather "2024-05-01" in
  let update := mkUpdate (Some "https://example.org/clip") 7 in
  let r := download_media "media_1f.mp4" update w in
  r.1 = Ret tt ∧
  (load_data r.2).1 = Ret (dict_of_store (mkStore ∅ "3.1" "2024-05-01" 0 1)).
Proof. split; reflexivity. Qed.

(** C2, amended.  For a user without a record, [record_download] creates
    no record and leaves the users and the system entry as they are; it
    raises the global counter of the language when that is "ar" or "en",
    writes the store back, and logs nothing. *)
Theorem record_download_unknown_user `{Env}
    (w : World) (s : Store) (user_id : Z) (language : string) :
  load_data w = (Ret (dict_of_store s), w) ->
  st_users s !! py_str user_id = None ->
  ∃ s',
    record_download user_id (VStr language) w
    = (Ret tt, with_data_file w (json_dumps (dict_of_store s'))) ∧
    w_log (with_data_file w (json_dumps (dict_of_store s'))) = w_log w ∧
    st_users s' = st_users s ∧
    st_version s' = st_version s ∧
    st_start_date s' = st_start_date s ∧
    st_ar_downloads s'
    = st_ar_downloads s + (if bool_decide (language = "ar") then 1 else 0) ∧
    st_en_downloads s'
    = st_en_downloads s + (if bool_decide (language = "en") then 1 else 0).
Proof.
  intros Hload Hunknown.
  exists (count_language language s). split.
  - rewrite (run_record_download w s) by done. unfold count_user.
    by rewrite count_language_users, Hunknown.
  - unfold count_language.
    repeat case_bool_decide; simplify_eq; simpl; repeat split; lia.
Qed.

Lemma record_download_unknown_user_witness :
  let w := @fresh_world fair_weather "2024-05-01" in
  let s := initial_store "2024-05-01" in
  load_data w = (Ret (dict_of_store s), w) ∧
  st_users s !! py_str 7 = None ∧
  ∃ s',
    record_download 7 (VStr "en") w
    = (Ret tt, with_data_file w (json_dumps (dict_of_store s'))) ∧
    w_log (with_data_file w (json_dumps (dict_of_store s'))) = w_log w ∧
    st_users s' = st_users s ∧
    st_version s' = st_version s ∧
    st_start_date s' = st_start_date s ∧
    st_ar_downloads s' = st_ar_downloads s + 0 ∧
    st_en_downloads s' = st_en_downloads s + 1.
Proof.
  intros w s.
  assert (Hload : load_data w = (Ret (dict_of_store s), w)) by reflexivity.
  assert (Hunknown : st_users s !! py_str 7 = None) by reflexivity.
  split; [exact Hload|]. split; [exact Hunknown|].
  exact (@record_download_unknown_user fair_weather w s 7 "en" Hload Hunknown).
Defined.

(** C2 as stated fails: on a data file that holds the initial store,
    recording a download for the unknown user 7 changes the store (the
    "en" counter goes from 0 to 1) and logs nothing. *)
Lemma record_download_unknown_user_changes_store :
  let w := @with_data_file fair_weather (fresh_world "2024-05-01")
             (json_dumps (initial_data "2024-05-01")) in
  let w' := (record_download 7 (VStr "en") w).2 in
  (load_data w).1 = Ret (dict_of_store (mkStore ∅ "3.1" "2024-05-01" 0 0)) ∧
  (load_data w').1 = Ret (dict_of_store (mkStore ∅ "3.1" "2024-05-01" 0 1)) ∧
  (load_data w').1 ≠ (load_data w).1 ∧
  w_log w' = [].
Proof.
  intros w w'.
  assert (Hbefore : (load_data w).1
                    = Ret (dict_of_store (mkStore ∅ "3.1" "2024-05-01" 0 0)))
    by reflexivity.
  assert (Hafter : (load_data w').1
                   = Ret (dict_of_store (mkStore ∅ "3.1" "2024-05-01" 0 1)))
    by reflexivity.
  split; [exact Hbefore|]. split; [exact Hafter|]. split; [|reflexivity].
  rewrite Hbefore, Hafter. intros Heq.
  apply (f_equal (mbind compute_totals)) in Heq.
  change (compute_totals (dict_of_store (mkStore ∅ "3.1" "2024-05-01" 0 1))
          = compute_totals (dict_of_store (mkStore ∅ "3.1" "2024-05-01" 0 0)))
    in Heq.
  rewrite !compute_totals_shape in Heq. discriminate Heq.
Qed.

(** C7.  [compute_totals] is a function of the store alone: on a store
    of the bot's shape it reports the number of user records and the sum
    of their download counts, next to the two global counters, and
    [stats_command] leaves files and log as they are.  From the initial
    store, [set_language 42 "en"] then [record_download 42 "en"] make it
    report one user, one download, and the counters en = 1, ar = 0; the
    same holds through the data file, starting without one, when the
    JSON codec round-trips. *)
Theorem compute_totals_counts `{Env} :
  (∀ s : Store,
     compute_totals (dict_of_store s)
     = Ret (mkTotals (Z.of_nat (size (st_users s)))
                     (downloads_of_users (st_users s))
                     (VInt (st_ar_downloads s)) (VInt (st_en_downloads s))
                     (VStr (st_version s)) (VStr (st_start_date s)))) ∧
  (∀ update (w : World), same_files w (stats_command update w).2) ∧
  (∀ now,
     (data1 ← apply_op (SetLanguage now 42 "en") (initial_data now);
      data2 ← apply_op (RecordDownload 42 "en") data1;
      compute_totals data2)
     = Ret (mkTotals 1 1 (VInt 0) (VInt 1) (VStr "3.1") (VStr now))) ∧
  (codec_roundtrip ->
   ∀ now,
     let w1 := (set_user_lang 42 (VStr "en") (fresh_world now)).2 in
     let w2 := (record_download 42 (VStr "en") w1).2 in
     (data ← load_data; lift (compute_totals data)) w2
     = (Ret (mkTotals 1 1 (VInt 0) (VInt 1) (VStr "3.1") (VStr now)), w2)).
Proof.
  split; [apply compute_totals_shape|].
  split; [apply stats_command_same_files|].
  split.
  - intros now. simpl apply_op. rewrite initial_data_shape.
    rewrite set_user_lang_update_shape.
    change (mbind ?f (Ret ?a)) with (f a). cbv beta.
    rewrite record_download_update_shape.
    change (mbind ?f (Ret ?a)) with (f a). cbv beta.
    by rewrite compute_totals_shape.
  - intros Hrt now w1 w2.
    assert (Hload0 :
      load_data (fresh_world now)
      = (Ret (dict_of_store (initial_store now)), fresh_world now))
      by reflexivity.
    unfold w2, w1.
    rewrite (run_set_user_lang _ _ 42 "en" Hload0). simpl snd.
    rewrite (run_record_download _ _ 42 "en" (load_data_saved _ _ Hrt)).
    simpl snd.
    rewrite (run_bind_ret _ _ _ _ _ (load_data_saved _ _ Hrt)).
    unfold lift. by rewrite compute_totals_shape.
Qed.

Lemma compute_totals_counts_witness :
  @codec_roundtrip fair_weather ∧
  let w1 := (@set_user_lang fair_weather 42 (VStr "en")
               (fresh_world "2024-05-01")).2 in
  let w2 := (record_download 42 (VStr "en") w1).2 in
  (data ← load_data; lift (compute_totals data)) w2
  = (Ret (mkTotals 1 1 (VInt 0) (VInt 1) (VStr "3.1") (VStr "2024-05-01")), w2).
Proof.
  assert (Hrt : @codec_roundtrip fair_weather) by (intros v; reflexivity).
  split; [exact Hrt|].
  pose proof (@compute_totals_counts fair_weather) as (_ & _ & _ & Hscenario).
  exact (Hscenario Hrt "2024-05-01").
Defined.

(** C8.  When every failure of a send is an [Exception], the broadcast
    loop calls the API once per id, in order, and returns: what it
    returns is the number of sends that succeeded and the number that
    failed, which add up to the number of ids.  With a sender that fails
    for id 2 only, the ids 1, 2, 3 give (2, 1). *)
Theorem broadcast_loop_counts `{Env}
    (body : string) (user_ids : list string) (w : World) :
  (∀ history c e, telegram history c = Raise e -> is_Exception e = true) ->
  let results := send_results (w_calls w) body user_ids in
  (∃ sent_count error_count w',
     broadcast_loop body user_ids 0 0 w = (Ret (sent_count, error_count), w') ∧
     sent_count = count_if succeeded results ∧
     error_count = count_if failed results ∧
     sent_count + error_count = Z.of_nat (length user_ids) ∧
     w_calls w'
     = w_calls w ++ ((fun user_id => SendMessage user_id body) <$> user_ids)) ∧
  (∀ now, (@broadcast_loop fails_for_2 body (py_str <$> [1; 2; 3]) 0 0
             (@fresh_world fails_for_2 now)).1 = Ret (2, 1)).
Proof.
  intros Hexc results. split.
  - destruct (broadcast_loop_run body user_ids 0 0 w Hexc)
      as (w' & Hrun & Hcalls & _).
    eexists _, _, w'. split; [exact Hrun|]. fold results.
    rewrite !Z.add_0_l. repeat split; [|done].
    unfold failed. rewrite count_if_split.
    unfold results. by rewrite send_results_length.
  - intros now. reflexivity.
Qed.

Lemma broadcast_loop_counts_witness :
  (∀ history c e,
     @telegram fails_for_2 history c = Raise e -> is_Exception e = true) ∧
  ∃ w', @broadcast_loop fails_for_2 "hello" ["1"; "2"; "3"] 0 0
          (@fresh_world fails_for_2 "2024-05-01") = (Ret (2, 1), w') ∧
        w_calls w' = [SendMessage "1" "hello"; SendMessage "2" "hello";
                      SendMessage "3" "hello"].
Proof.
  assert (Hexc : ∀ history c e,
            @telegram fails_for_2 history c = Raise e -> is_Exception e = true).
  { intros history c e. simpl.
    destruct c as [| | | |chat_id body]; try discriminate.
    destruct (decide (chat_id = "2")) as [->|Hne].
    - by intros [= <-].
    - intros Hraise. exfalso. revert Hraise.
      repeat (destruct chat_id as [|[[] [] [] [] [] [] [] []] chat_id];
              try discriminate; try done). }
  split; [exact Hexc|].
  destruct (@broadcast_loop_counts fails_for_2 "hello" ["1"; "2"; "3"]
              (@fresh_world fails_for_2 "2024-05-01") Hexc)
    as [(sent_count & error_count & w' & Hrun & -> & -> & _ & Hcalls) _].
  exists w'. split; [exact Hrun|exact Hcalls].
Defined.

(** C9, amended.  Whatever way [download_media] ends (normally, with the
    extractor or the API raising, with a cancellation), short of a
    cancelled wait for the extractor that leaves its thread with the file
    still to write, the temporary file it may have created is gone at
    the end provided [os.remove] succeeds on it, and no thread is left
    that would write it afterwards.  When [os.remove] raises, the file
    stays, and an [Exception] it raised is the last record of the log. *)
Theorem download_media_cleanup `{Env}
    (file : string) (update : Update) (w : World) :
  file ∉ w_media w ->
  (∀ url written, message_text update = Some url ->
     extract_info url file = (Raise CancelledError, written) ->
     written_later url file = false) ->
  let w' := (download_media file update w).2 in
  w_workers w' = w_workers w ∧
  (remove_error file = None -> w_media w' = w_media w) ∧
  (∀ e, remove_error file = Some e ->
     file ∈ w_media w' ->
     w_media w' = {[file]} ∪ w_media w ∧
     (is_Exception e = true -> last (w_log w') = Some (DeleteError e))).
Proof.
  intros Hfresh Hwait w'.
  pose proof (download_media_tidy file update w Hfresh) as Htidy.
  fold w' in Htidy. unfold tidy_after in Htidy.
  split; [by apply download_media_keeps_workers|]. split.
  - intros Hremove. by rewrite Hremove in Htidy.
  - intros e Hremove Hleft. rewrite Hremove in Htidy.
    destruct Htidy as [Hsame|Hstuck]; [|done].
    rewrite Hsame in Hleft. done.
Qed.

Lemma download_media_cleanup_witness :
  let w := @fresh_world fair_weather "2024-05-01" in
  let update := mkUpdate (Some "https://example.org/clip") 7 in
  ("media_1f.mp4" ∉ w_media w) ∧
  @remove_error fair_weather "media_1f.mp4" = None ∧
  w_workers (download_media "media_1f.mp4" update w).2 = w_workers w ∧
  w_media (download_media "media_1f.mp4" update w).2 = w_media w.
Proof.
  intros w update.
  assert (Hfresh : "media_1f.mp4" ∉ w_media w) by apply not_elem_of_empty.
  assert (Hremove : @remove_error fair_weather "media_1f.mp4" = None)
    by reflexivity.
  assert (Hwait : ∀ (url : string) (written : bool),
    message_text update = Some url ->
    @extract_info fair_weather url "media_1f.mp4"
    = (Raise CancelledError, written) ->
    @written_later fair_weather url "media_1f.mp4" = false)
    by (intros url written _ _; reflexivity).
  split; [exact Hfresh|]. split; [exact Hremove|].
  pose proof (@download_media_cleanup fair_weather "media_1f.mp4" update w
                Hfresh Hwait) as (Hworkers & Hgone & _).
  split; [exact Hworkers|exact (Hgone Hremove)].
Defined.

(** C9 as stated fails: the extractor writes the file, the media is sent,
    [os.remove] raises, and the handler returns with the file in place. *)
Lemma download_media_leaves_file_behind :
  let w := @fresh_world stuck_file "2024-05-01" in
  let update := mkUpdate (Some "https://example.org/clip") 7 in
  let r := download_media "media_1f.mp4" update w in
  ("media_1f.mp4" ∉ w_media w) ∧
  r.1 = Ret tt ∧
  ("media_1f.mp4" ∈ w_media r.2) ∧
  w_log r.2 = [DeleteError (Failure "PermissionError")].
Proof.
  intros w update r.
  split; [apply not_elem_of_empty|]. split; [reflexivity|].
  split; [|reflexivity].
  apply (bool_decide_unpack _). vm_compute. exact I.
Qed.

(** On a cancelled wait the file is left behind although [os.remove]
    never raises: the [finally] block finds nothing to remove, the
    handler ends with [CancelledError], and the worker thread, which
    nothing has stopped, writes its file afterwards. *)
Lemma cancelled_download_leaves_file_behind :
  let w := @fresh_world cancelled_wait "2024-05-01" in
  let update := mkUpdate (Some "https://example.org/clip") 7 in
  let r := download_media "media_1f.mp4" update w in
  r.1 = Raise CancelledError ∧
  w_media r.2 = ∅ ∧
  w_log r.2 = [] ∧
  "media_1f.mp4" ∈ w_media (workers_end r.2).
Proof.
  intros w update r.
  split; [reflexivity|]. split; [reflexivity|]. split; [reflexivity|].
  apply (bool_decide_unpack _). vm_compute. exact I.
Qed.

(** C10.  When the extractor raises, or returns without an output file,
    [download_media] writes nothing: the data file is what it was, and
    so is the store that [load_data] reads from it. *)
Theorem failed_download_persists_nothing `{Env}
    (file url : string) (update : Update) (w : World) :
  message_text update = Some url ->
  extraction_failed file url w ->
  let w' := (download_media file update w).2 in
  w_data_file w' = w_data_file w ∧ (load_data w').1 = (load_data w).1.
Proof.
  intros Htext Hfailed w'.
  assert (Hfile : w_data_file w' = w_data_file w).
  { unfold w'.
    destruct (download_media_cases file update w)
      as [(Hsame & _)|(url' & lang & w1 & Htext' & (Hfile & Hmedia & _) & ->)];
      [done|].
    assert (url' = url) as -> by congruence.
    rewrite try_finally_world, cleanup_keeps_data_file.
    rewrite try_except_after by apply download_failed_keeps_data_file.
    rewrite failed_body_keeps_data_file; [done|].
    destruct Hfailed as [Hraise|(info & Hret & Hfresh)]; [by left|].
    right. exists info. by rewrite Hmedia. }
  split; [exact Hfile|].
  apply load_data_ext; [exact Hfile|]. apply download_media_keeps_now.
Qed.

Lemma failed_download_persists_nothing_witness :
  let w := (@set_user_lang failing_extractor 42 (VStr "en")
              (@fresh_world failing_extractor "2024-05-01")).2 in
  let update := mkUpdate (Some "https://example.org/clip") 42 in
  let w' := (download_media "media_1f.mp4" update w).2 in
  message_text update = Some "https://example.org/clip" ∧
  extraction_failed "media_1f.mp4" "https://example.org/clip" w ∧
  w_data_file w' = w_data_file w ∧ (load_data w').1 = (load_data w).1.
Proof.
  intros w update w'.
  assert (Htext : message_text update = Some "https://example.org/clip")
    by reflexivity.
  assert (Hfailed :
    extraction_failed "media_1f.mp4" "https://example.org/clip" w).
  { left. exists (Failure "Unsupported URL"), false. reflexivity. }
  split; [exact Htext|]. split; [exact Hfailed|].
  exact (@failed_download_persists_nothing failing_extractor "media_1f.mp4"
           "https://example.org/clip" update w Htext Hfailed).
Defined.

(** * More of the code *)

(** ** The data file *)

Lemma load_data_repairs_global_stats_aux `{Env}
    (w : World) (c : text) (d : gmap string value) :
  w_data_file w = Some c ->
  json_loads c = Some (VDict d) ->
  ∃ d',
    load_data w = (Ret (VDict d'), w) ∧
    (∀ key, key ≠ "global_stats" -> d' !! key = d !! key).
Proof.
  intros Hfile Hdoc.
  unfold load_data, try_except, read_data_file, mbind, M_bind, lift, json_load.
  rewrite Hfile, Hdoc. simpl.
  destruct (bool_decide (is_Some (d !! "global_stats"))); simpl.
  - by exists d.
  - exists (<["global_stats" := zero_stats]> d). split; [done|].
    intros key Hkey. by rewrite lookup_insert_ne.
Qed.

(** X1.  When the data file holds a JSON object, [load_data] returns it
    with a "global_stats" entry in every case: the object as it is when
    it has the entry, and with the two zeroed counters added when it has
    not.  No other entry is touched, and nothing is written. *)
Theorem load_data_repairs_global_stats `{Env}
    (w : World) (c : text) (d : gmap string value) :
  w_data_file w = Some c ->
  json_loads c = Some (VDict d) ->
  ∃ d',
    load_data w = (Ret (VDict d'), w) ∧
    is_Some (d' !! "global_stats") ∧
    (∀ key, key ≠ "global_stats" -> d' !! key = d !! key) ∧
    (is_Some (d !! "global_stats") -> d' = d) ∧
    (d !! "global_stats" = None -> d' !! "global_stats" = Some zero_stats).
Proof.
  intros Hfile Hdoc.
  unfold load_data, try_except, read_data_file, mbind, M_bind, lift, json_load.
  rewrite Hfile, Hdoc. simpl.
  destruct (d !! "global_stats") as [stats|] eqn:Hstats.
  - rewrite bool_decide_eq_true_2 by done. simpl.
    exists d. rewrite Hstats. by repeat split.
  - rewrite bool_decide_eq_false_2 by (by intros [? ?]). simpl.
    exists (<["global_stats" := zero_stats]> d). split; [done|].
    rewrite lookup_insert_eq. split; [done|]. split; [|split].
    + intros key Hkey. by rewrite lookup_insert_ne.
    + by intros [? ?].
    + done.
Qed.

Lemma load_data_repairs_global_stats_witness :
  let d : gmap string value := {[ "users" := VDict ∅ ]} in
  let w := @mkWorld fair_weather (Some (Some (VDict d))) ∅ [] [] "2024-05-01" ∅ in
  w_data_file w = Some (Some (VDict d)) ∧
  @json_loads fair_weather (Some (VDict d)) = Some (VDict d) ∧
  ∃ d',
    load_data w = (Ret (VDict d'), w) ∧
    is_Some (d' !! "global_stats") ∧
    (∀ key, key ≠ "global_stats" -> d' !! key = d !! key) ∧
    (is_Some (d !! "global_stats") -> d' = d) ∧
    (d !! "global_stats" = None -> d' !! "global_stats" = Some zero_stats).
Proof.
  intros d w.
  assert (Hfile : w_data_file w = Some (Some (VDict d))) by reflexivity.
  assert (Hdoc : @json_loads fair_weather (Some (VDict d)) = Some (VDict d))
    by reflexivity.
  split; [exact Hfile|]. split; [exact Hdoc|].
  exact (@load_data_repairs_global_stats fair_weather w _ d Hfile Hdoc).
Defined.

(** X2.  [load_data] raises in two situations only, both on a data file
    that is there.  An error of [json.load] that the [except] clause does
    not name leaves [load_data] as it is: [UnicodeDecodeError], on bytes
    that are not text in the encoding of the locale, is one.  And a JSON
    document that is not an object and does not contain "global_stats"
    (a number, [null], a list or a string without it) makes it raise
    [TypeError].  An absent file never makes it raise, nor does text that
    is not a JSON document. *)
Theorem load_data_raises_exactly `{Env} (w : World) (e : exn) :
  (load_data w).1 = Raise e <->
  ∃ c, w_data_file w = Some c ∧
    ((json_loads c = None ∧ json_load_error c = e ∧
      e ≠ FileNotFoundError ∧ e ≠ JSONDecodeError) ∨
     (e = TypeError ∧
      ∃ v, json_loads c = Some v ∧ (∀ d, v ≠ VDict d) ∧
           contains "global_stats" v ≠ Ret true)).
Proof.
  split.
  - unfold load_data, try_except, read_data_file, mbind, M_bind, lift, json_load.
    destruct (w_data_file w) as [c|]; [|done].
    destruct (json_loads c) as [v|] eqn:Hdoc.
    + intros Hraise. exists c. split; [done|]. right. revert Hraise.
      destruct v as [|b|n|s|l|d]; simpl.
      * intros [= <-]. split; [done|]. by exists VNone.
      * intros [= <-]. split; [done|]. by exists (VBool b).
      * intros [= <-]. split; [done|]. by exists (VInt n).
      * destruct (is_infix "global_stats" s) eqn:Hin; simpl; [done|].
        intros [= <-]. split; [done|]. exists (VStr s).
        repeat split; try done. simpl. by rewrite Hin.
      * destruct (existsb (is_str "global_stats") l) eqn:Hin; simpl; [done|].
        intros [= <-]. split; [done|]. exists (VList l).
        repeat split; try done. simpl. by rewrite Hin.
      * by destruct (bool_decide (is_Some (d !! "global_stats"))).
    + intros Hraise. exists c. split; [done|]. left. split; [done|].
      revert Hraise. by destruct (json_load_error c); intros [= <-].
  - intros (c & Hfile & [(Hc & Herror & Hfound & Hdecode)
                        |(-> & v & Hdoc & Hshape & Hstats)]).
    + by rewrite (load_data_uncaught w c e).
    + unfold load_data, try_except, read_data_file, mbind, M_bind, lift,
        json_load.
      rewrite Hfile, Hdoc.
      destruct v as [|b|n|s|l|d]; simpl; try done.
      * simpl in Hstats. by destruct (is_infix "global_stats" s).
      * simpl in Hstats. by destruct (existsb (is_str "global_stats") l).
      * by destruct (Hshape d).
Qed.

Lemma load_data_raises_exactly_witness :
  let w := @mkWorld fair_weather (Some (Some (VInt 3))) ∅ [] [] "2024-05-01" ∅ in
  (load_data w).1 = Raise TypeError ∧
  ∃ c, w_data_file w = Some c ∧
    ((json_loads c = None ∧ json_load_error c = TypeError ∧
      TypeError ≠ FileNotFoundError ∧ TypeError ≠ JSONDecodeError) ∨
     (TypeError = TypeError ∧
      ∃ v, json_loads c = Some v ∧ (∀ d, v ≠ VDict d) ∧
           contains "global_stats" v ≠ Ret true)).
Proof.
  intros w.
  assert (Hraise : (load_data w).1 = Raise TypeError) by reflexivity.
  split; [exact Hraise|].
  exact (proj1 (@load_data_raises_exactly fair_weather w TypeError) Hraise).
Defined.

(** X20.  When the data file is absent, or holds text that is not a JSON
    document, [load_data] does not raise: in both cases it returns the
    same freshly built store, with no users, version "3.1", the current
    time as start date and both counters at zero, and writes nothing. *)
Theorem load_data_recovers `{Env} (w : World) :
  w_data_file w = None ∨
  (∃ c, w_data_file w = Some c ∧ json_loads c = None ∧
        json_load_error c = JSONDecodeError) ->
  load_data w = (Ret (initial_data (w_now w)), w) ∧
  initial_data (w_now w) = dict_of_store (mkStore ∅ "3.1" (w_now w) 0 0).
Proof.
  intros [Habsent|(c & Hfile & Hcorrupt & Herror)]; (split; [|reflexivity]).
  - by apply load_data_absent.
  - by apply (load_data_corrupt w c).
Qed.

Lemma load_data_recovers_witness :
  let w := @mkWorld any_file (Some NotJSON) ∅ [] [] "2024-05-01" ∅ in
  (w_data_file w = None ∨
   (∃ c, w_data_file w = Some c ∧ json_loads c = None ∧
         json_load_error c = JSONDecodeError)) ∧
  load_data w = (Ret (initial_data "2024-05-01"), w) ∧
  initial_data "2024-05-01" = dict_of_store (mkStore ∅ "3.1" "2024-05-01" 0 0).
Proof.
  intros w.
  assert (Hcorrupt : w_data_file w = None
                     ∨ (∃ c, w_data_file w = Some c ∧ json_loads c = None ∧
                             json_load_error c = JSONDecodeError)).
  { right. exists NotJSON. repeat split; reflexivity. }
  split; [exact Hcorrupt|].
  exact (@load_data_recovers any_file w Hcorrupt).
Defined.

(** X3.  The start-up creates the data file, holding the initial store,
    exactly when there is none; a file that exists is left as it is,
    whatever it holds.  Afterwards the file exists, and a second
    start-up changes nothing. *)
Theorem bootstrap_creates_once `{Env} (w : World) :
  (w_data_file w = None ->
   bootstrap w
   = (Ret tt, with_data_file w (json_dumps (initial_data (w_now w))))) ∧
  (∀ c, w_data_file w = Some c -> bootstrap w = (Ret tt, w)) ∧
  is_Some (w_data_file (bootstrap w).2) ∧
  bootstrap (bootstrap w).2 = (Ret tt, (bootstrap w).2).
Proof.
  assert (Hkept : ∀ w0 c, w_data_file w0 = Some c -> bootstrap w0 = (Ret tt, w0)).
  { intros w0 c Hfile. unfold bootstrap, data_file_exists, mbind, M_bind.
    rewrite Hfile. by rewrite bool_decide_eq_true_2 by by eexists. }
  assert (Hmade : w_data_file w = None ->
    bootstrap w
    = (Ret tt, with_data_file w (json_dumps (initial_data (w_now w))))).
  { intros Hfile. unfold bootstrap, data_file_exists.
    rewrite (run_bind_ret _ _ w false w)
      by (by rewrite Hfile, bool_decide_eq_false_2 by by intros [? ?]).
    change ((data ← load_data; save_data data) w
            = (Ret tt, with_data_file w (json_dumps (initial_data (w_now w))))).
    by rewrite (run_bind_ret _ _ _ _ _ (load_data_absent w Hfile)). }
  split; [exact Hmade|]. split; [apply Hkept|].
  destruct (w_data_file w) as [c|] eqn:Hfile.
  - rewrite (Hkept w c Hfile). simpl. rewrite Hfile. split; [by eexists|].
    by apply (Hkept w c).
  - rewrite (Hmade eq_refl). simpl. split; [by eexists|].
    by apply (Hkept _ (json_dumps (initial_data (w_now w)))).
Qed.

(** X4.  With a JSON codec that round-trips, the language set for a user
    is the language read for that user afterwards, and what is read for
    any other user is as before. *)
Theorem get_after_set `{Env}
    (w : World) (s : Store) (user_id : Z) (language : string) :
  codec_roundtrip ->
  load_data w = (Ret (dict_of_store s), w) ->
  let w' := (set_user_lang user_id (VStr language) w).2 in
  get_user_lang user_id w' = (Ret (VStr language), w') ∧
  (∀ other, other ≠ user_id ->
     (get_user_lang other w').1 = (get_user_lang other w).1).
Proof.
  intros Hrt Hload w'. unfold w'.
  rewrite (run_set_user_lang w s user_id language Hload). simpl snd.
  split.
  - rewrite (run_get_user_lang _ _ user_id (load_data_saved _ _ Hrt)).
    cbn [st_users with_users]. rewrite lookup_insert_eq.
    by destruct (st_users s !! py_str user_id).
  - intros other Hother.
    rewrite (run_get_user_lang _ _ other (load_data_saved _ _ Hrt)).
    rewrite (run_get_user_lang w s other Hload).
    cbn [st_users with_users fst].
    rewrite lookup_insert_ne; [done|].
    intros Heq. by apply py_str_inj in Heq.
Qed.

Lemma get_after_set_witness :
  let w := @fresh_world fair_weather "2024-05-01" in
  let w' := (set_user_lang 42 (VStr "ar") w).2 in
  @codec_roundtrip fair_weather ∧
  load_data w = (Ret (dict_of_store (initial_store "2024-05-01")), w) ∧
  get_user_lang 42 w' = (Ret (VStr "ar"), w') ∧
  (∀ other, other ≠ 42 ->
     (get_user_lang other w').1 = (get_user_lang other w).1).
Proof.
  intros w w'.
  assert (Hrt : @codec_roundtrip fair_weather) by (intros v; reflexivity).
  assert (Hload : load_data w
                  = (Ret (dict_of_store (initial_store "2024-05-01")), w))
    by reflexivity.
  split; [exact Hrt|]. split; [exact Hload|].
  exact (@get_after_set fair_weather w _ 42 "ar" Hrt Hload).
Defined.

(** X5.  [load_data] repairs a missing "global_stats" entry only: on a
    data file whose object has no "users" entry, reading or setting a
    language raises [KeyError] on "users" and [download_media] stops
    before its first reply; none of them changes the world. *)
Theorem missing_users_entry `{Env}
    (w : World) (c : text) (d : gmap string value) (user_id : Z) (lang : value) :
  w_data_file w = Some c ->
  json_loads c = Some (VDict d) ->
  d !! "users" = None ->
  get_user_lang user_id w = (Raise (KeyError (VStr "users")), w) ∧
  set_user_lang user_id lang w = (Raise (KeyError (VStr "users")), w) ∧
  (∀ file update, (download_media file update w).2 = w).
Proof.
  intros Hfile Hdoc Husers.
  destruct (load_data_repairs_global_stats_aux w c d Hfile Hdoc)
    as (d' & Hload & Hother).
  assert (Hd' : d' !! "users" = None) by (by rewrite Hother).
  assert (Hget : ∀ id, get_user_lang id w = (Raise (KeyError (VStr "users")), w)).
  { intros id. unfold get_user_lang.
    rewrite (run_bind_ret _ _ _ _ _ Hload).
    unfold mbind, M_bind, lift. simpl. by rewrite Hd'. }
  split; [apply Hget|]. split.
  - unfold set_user_lang. rewrite (run_bind_ret _ _ _ _ _ Hload).
    unfold mbind, M_bind, datetime_now, lift, set_user_lang_update.
    simpl. by rewrite Hd'.
  - intros file update. unfold download_media.
    destruct (message_text update) as [[|ch url]|]; [done| |done].
    by rewrite (run_bind_raise _ _ _ _ _ (Hget _)).
Qed.

Lemma missing_users_entry_witness :
  let w := @mkWorld fair_weather (Some (Some (VDict ∅))) ∅ [] [] "2024-05-01" ∅ in
  w_data_file w = Some (Some (VDict ∅)) ∧
  @json_loads fair_weather (Some (VDict ∅)) = Some (VDict ∅) ∧
  (∅ : gmap string value) !! "users" = None ∧
  get_user_lang 42 w = (Raise (KeyError (VStr "users")), w) ∧
  set_user_lang 42 (VStr "en") w = (Raise (KeyError (VStr "users")), w) ∧
  (∀ file update, (download_media file update w).2 = w).
Proof.
  intros w.
  assert (Hfile : w_data_file w = Some (Some (VDict ∅))) by reflexivity.
  assert (Hdoc : @json_loads fair_weather (Some (VDict ∅)) = Some (VDict ∅))
    by reflexivity.
  assert (Husers : (∅ : gmap string value) !! "users" = None) by reflexivity.
  split; [exact Hfile|]. split; [exact Hdoc|]. split; [exact Husers|].
  exact (@missing_users_entry fair_weather w _ ∅ 42 (VStr "en")
           Hfile Hdoc Husers).
Defined.

(** ** The two operations on the store *)

(** X6.  For a user who has a record, [record_download] raises that
    user's download count by one, whatever the language, and keeps the
    record's first_seen and language; it raises the counter of the
    language by one when that is "ar" or "en", and leaves every other
    user and the system entry alone. *)
Theorem record_download_known_user `{Env}
    (w : World) (s : Store) (user_id : Z) (language : string) (u : UserRecord) :
  load_data w = (Ret (dict_of_store s), w) ->
  st_users s !! py_str user_id = Some u ->
  ∃ s',
    record_download user_id (VStr language) w
    = (Ret tt, with_data_file w (json_dumps (dict_of_store s'))) ∧
    st_users s' !! py_str user_id
    = Some (mkUser (u_first_seen u) (u_lang u) (u_download_count u + 1)) ∧
    (∀ key, key ≠ py_str user_id -> st_users s' !! key = st_users s !! key) ∧
    st_version s' = st_version s ∧
    st_start_date s' = st_start_date s ∧
    st_ar_downloads s'
    = st_ar_downloads s + (if bool_decide (language = "ar") then 1 else 0) ∧
    st_en_downloads s'
    = st_en_downloads s + (if bool_decide (language = "en") then 1 else 0).
Proof.
  intros Hload Hknown.
  exists (count_user (py_str user_id) (count_language language s)).
  split; [by apply run_record_download|].
  unfold count_user. rewrite count_language_users, Hknown.
  cbn [st_users with_users st_version st_start_date st_ar_downloads
       st_en_downloads].
  rewrite lookup_insert_eq.
  split; [done|]. split.
  { intros key Hkey. rewrite lookup_insert_ne by done.
    by rewrite ?count_language_users. }
  unfold count_language.
  repeat case_bool_decide; simplify_eq; simpl; repeat split; lia.
Qed.

Lemma record_download_known_user_witness :
  let w := (@set_user_lang fair_weather 42 (VStr "ar")
              (@fresh_world fair_weather "2024-05-01")).2 in
  let u := mkUser "2024-05-01" "ar" 0 in
  let s := mkStore {[ "42" := u ]} "3.1" "2024-05-01" 0 0 in
  load_data w = (Ret (dict_of_store s), w) ∧
  st_users s !! py_str 42 = Some u ∧
  ∃ s',
    record_download 42 (VStr "ar") w
    = (Ret tt, with_data_file w (json_dumps (dict_of_store s'))) ∧
    st_users s' !! py_str 42 = Some (mkUser "2024-05-01" "ar" 1) ∧
    (∀ key, key ≠ py_str 42 -> st_users s' !! key = st_users s !! key) ∧
    st_version s' = st_version s ∧
    st_start_date s' = st_start_date s ∧
    st_ar_downloads s' = st_ar_downloads s + 1 ∧
    st_en_downloads s' = st_en_downloads s + 0.
Proof.
  intros w u s.
  assert (Hload : load_data w = (Ret (dict_of_store s), w)) by reflexivity.
  assert (Hknown : st_users s !! py_str 42 = Some u) by reflexivity.
  split; [exact Hload|]. split; [exact Hknown|].
  exact (@record_download_known_user fair_weather w s 42 "ar" u Hload Hknown).
Defined.

(** X7.  On a store of the bot's shape neither operation fails, and
    neither loses anything: every user keeps a record with the same
    first_seen and a download count that is not lower, no counter goes
    down, the two counters together rise by one at most, and the system
    entry stays. *)
Theorem operations_never_lose (o : op) (s : Store) :
  ∃ s',
    apply_op o (dict_of_store s) = Ret (dict_of_store s') ∧
    (∀ key u, st_users s !! key = Some u ->
       ∃ u', st_users s' !! key = Some u' ∧
             u_first_seen u' = u_first_seen u ∧
             u_download_count u <= u_download_count u' <= u_download_count u + 1) ∧
    st_ar_downloads s <= st_ar_downloads s' ∧
    st_en_downloads s <= st_en_downloads s' ∧
    st_ar_downloads s' + st_en_downloads s'
    <= st_ar_downloads s + st_en_downloads s + 1 ∧
    st_version s' = st_version s ∧
    st_start_date s' = st_start_date s.
Proof.
  destruct o as [now user_id language|user_id language]; simpl apply_op.
  - eexists. split; [apply set_user_lang_update_shape|].
    cbn [st_users with_users st_version st_start_date st_ar_downloads
         st_en_downloads].
    split; [|repeat split; lia].
    intros key u Hu.
    destruct (decide (key = py_str user_id)) as [->|Hne].
    + rewrite lookup_insert_eq, Hu. eexists. split; [done|]. simpl. split; [done|lia].
    + rewrite lookup_insert_ne by done. exists u. split; [done|]. split; [done|lia].
  - eexists. split; [apply record_download_update_shape|].
    assert (Husers : ∀ key u, st_users s !! key = Some u ->
      ∃ u', st_users (count_user (py_str user_id) (count_language language s))
              !! key = Some u' ∧
            u_first_seen u' = u_first_seen u ∧
            u_download_count u <= u_download_count u'
            <= u_download_count u + 1).
    { intros key u Hu. unfold count_user. rewrite count_language_users.
      destruct (st_users s !! py_str user_id) as [v|] eqn:Hv.
      - cbn [st_users with_users].
        destruct (decide (key = py_str user_id)) as [->|Hne].
        + rewrite lookup_insert_eq. eexists. split; [done|].
          assert (v = u) as -> by congruence. simpl. split; [done|lia].
        + rewrite lookup_insert_ne by done. rewrite ?count_language_users.
          exists u. split; [done|]. split; [done|lia].
      - rewrite ?count_language_users. exists u. split; [done|]. split; [done|lia]. }
    split; [exact Husers|].
    assert (Hrest : ∀ s0,
      st_ar_downloads (count_user (py_str user_id) s0) = st_ar_downloads s0 ∧
      st_en_downloads (count_user (py_str user_id) s0) = st_en_downloads s0 ∧
      st_version (count_user (py_str user_id) s0) = st_version s0 ∧
      st_start_date (count_user (py_str user_id) s0) = st_start_date s0).
    { intros s0. unfold count_user.
      by destruct (st_users s0 !! py_str user_id). }
    destruct (Hrest (count_language language s)) as (-> & -> & -> & ->).
    unfold count_language.
    repeat case_bool_decide; simpl; repeat split; lia.
Qed.

Lemma reachable_counts_aux data :
  reachable data ->
  ∃ s, data = dict_of_store s ∧
       map_Forall (fun _ u => 0 <= u_download_count u) (st_users s) ∧
       0 <= st_ar_downloads s ∧ 0 <= st_en_downloads s ∧
       st_version s = "3.1".
Proof.
  induction 1 as [now|o data data' _ (s & -> & Husers & Har & Hen & Hv) _ Hstep].
  - exists (initial_store now). split; [done|]. split; [|done].
    apply map_Forall_empty.
  - destruct o as [now user_id language|user_id language]; simpl in Hstep.
    + rewrite set_user_lang_update_shape in Hstep. injection Hstep as <-.
      eexists. split; [done|].
      cbn [st_users with_users st_version st_ar_downloads st_en_downloads].
      split; [|done].
      apply map_Forall_insert_2; [|done].
      destruct (st_users s !! py_str user_id) as [u|] eqn:Hu; simpl; [|done].
      by apply (Husers _ _ Hu).
    + rewrite record_download_update_shape in Hstep. injection Hstep as <-.
      eexists. split; [done|]. unfold count_user.
      rewrite count_language_users.
      assert (Hcounters :
        0 <= st_ar_downloads (count_language language s) ∧
        0 <= st_en_downloads (count_language language s) ∧
        st_version (count_language language s) = "3.1").
      { unfold count_language. repeat case_bool_decide; simpl; repeat split;
          try done; lia. }
      destruct (st_users s !! py_str user_id) as [u|] eqn:Hu.
      * cbn [st_users with_users st_version st_ar_downloads st_en_downloads].
        split; [|done].
        rewrite ?count_language_users. apply map_Forall_insert_2; [|done].
        simpl. pose proof (Husers _ _ Hu) as Hu0. simpl in Hu0. lia.
      * by rewrite ?count_language_users.
Qed.

(** X8.  In every store reached from the initial one by [set_language]
    and [record_download] operations, no download count and no counter
    is negative, the version is "3.1", and [compute_totals] succeeds
    with a total that is not negative. *)
Theorem reachable_counts_nonnegative (data : value) :
  reachable data ->
  ∃ s t,
    data = dict_of_store s ∧
    (∀ key u, st_users s !! key = Some u -> 0 <= u_download_count u) ∧
    0 <= st_ar_downloads s ∧ 0 <= st_en_downloads s ∧
    st_version s = "3.1" ∧
    compute_totals data = Ret t ∧
    0 <= total_downloads t ∧ 0 <= total_users t.
Proof.
  intros (s & -> & Husers & Har & Hen & Hv)%reachable_counts_aux.
  eexists s, _. split; [done|]. split; [exact Husers|].
  split; [done|]. split; [done|]. split; [done|].
  split; [apply compute_totals_shape|]. simpl. split; [|lia].
  unfold downloads_of_users.
  induction (st_users s) as [|key u us Hkey Hfold IH] using map_first_key_ind.
  - by rewrite map_fold_empty.
  - rewrite map_fold_insert_first_key by done.
    apply map_Forall_insert in Husers as [Hu Hus]; [|done].
    specialize (IH Hus). lia.
Qed.

Lemma reachable_counts_nonnegative_witness :
  let data := dict_of_store (mkStore ∅ "3.1" "2024-05-01" 0 1) in
  reachable data ∧
  ∃ s t,
    data = dict_of_store s ∧
    (∀ key u, st_users s !! key = Some u -> 0 <= u_download_count u) ∧
    0 <= st_ar_downloads s ∧ 0 <= st_en_downloads s ∧
    st_version s = "3.1" ∧
    compute_totals data = Ret t ∧
    0 <= total_downloads t ∧ 0 <= total_users t.
Proof.
  intros data.
  assert (Hreach : reachable data).
  { eapply (reachable_step _ (RecordDownload 7 "en")).
    - apply (reachable_initial _ "2024-05-01").
    - exact I.
    - reflexivity. }
  split; [exact Hreach|].
  exact (reachable_counts_nonnegative data Hreach).
Defined.

(** ** The download handler, path by path *)

Section Paths.
Context `{Env}.
Implicit Types (w : World).

Lemma try_except_bind_ret {A B} (c : M A) (k : A -> M B) catches handler
    w a w' :
  c w = (Ret a, w') ->
  try_except (c ≫= k) catches handler w = try_except (k a) catches handler w'.
Proof. intros Hc. unfold try_except. by rewrite (run_bind_ret _ _ _ _ _ Hc). Qed.

Lemma try_except_bind_raise {A B} (c : M A) (k : A -> M B) catches handler
    w e w' :
  c w = (Raise e, w') ->
  try_except (c ≫= k) catches handler w
  = if catches e then handler e w' else (Raise e, w').
Proof. intros Hc. unfold try_except. by rewrite (run_bind_raise _ _ _ _ _ Hc). Qed.

Lemma try_finally_run {A} (body : M A) final w r w1 w2 :
  body w = (r, w1) -> final w1 = (Ret tt, w2) ->
  try_finally body final w = (r, w2).
Proof. intros Hbody Hfinal. unfold try_finally. by rewrite Hbody, Hfinal. Qed.

Lemma try_finally_same_body {A} (body body' : M A) final w w' :
  body w = body' w' -> try_finally body final w = try_finally body' final w'.
Proof. intros Hbody. unfold try_finally. by rewrite Hbody. Qed.

Lemma TEXTS_supported l key :
  l = "ar" ∨ l = "en" -> TEXTS (VStr l) key = Ret (Texts l key).
Proof. intros Hl. unfold TEXTS. by rewrite bool_decide_eq_true_2. Qed.

Lemma TEXTS_unsupported l key :
  ¬ (l = "ar" ∨ l = "en") -> TEXTS (VStr l) key = Raise (KeyError (VStr l)).
Proof. intros Hl. unfold TEXTS. by rewrite bool_decide_eq_false_2. Qed.

Lemma load_data_elsewhere w w' r :
  w_data_file w' = w_data_file w -> w_now w' = w_now w ->
  load_data w = (r, w) -> load_data w' = (r, w').
Proof.
  intros Hfile Hnow Hload.
  pose proof (load_data_ext w w' Hfile Hnow) as Hfst.
  pose proof (load_data_reads w') as Hsnd.
  rewrite Hload in Hfst. simpl in Hfst.
  destruct (load_data w') as [r' w'']. simpl in *. by subst.
Qed.

Lemma fresh_removed (file : string) (media : gset string) :
  file ∉ media -> ({[file]} ∪ media) ∖ {[file]} = media.
Proof.
  intros Hfresh. apply set_eq. intros x.
  rewrite elem_of_difference, elem_of_union, elem_of_singleton.
  split; [by intros [[->|Hx] Hne]|].
  intros Hx. split; [by right|]. by intros ->.
Qed.

Lemma absent_removed (file : string) (media : gset string) :
  file ∉ media -> media ∖ {[file]} = media.
Proof.
  intros Hfresh. apply set_eq. intros x.
  rewrite elem_of_difference, elem_of_singleton.
  split; [by intros [Hx _]|]. intros Hx. split; [done|]. by intros ->.
Qed.

(** The [finally] block when the file can be removed. *)
Lemma cleanup_run file w :
  remove_error file = None ->
  cleanup file w
  = (Ret tt, mkWorld (w_data_file w) (w_media w ∖ {[file]}) (w_log w)
                     (w_calls w) (w_now w) (w_workers w)).
Proof.
  intros Hremove.
  unfold cleanup, path_exists, mbind, M_bind, try_except, os_remove.
  destruct (decide (file ∈ w_media w)) as [Hin|Hin].
  - rewrite !bool_decide_eq_true_2 by done. by rewrite Hremove.
  - rewrite !bool_decide_eq_false_2 by done.
    rewrite absent_removed by done. by destruct w.
Qed.

(** The handler up to the [try] statement, for a user whose language has
    texts and a first reply that goes through. *)
Lemma download_media_started file update url l w :
  message_text update = Some url -> url ≠ "" ->
  get_user_lang (effective_user_id update) w = (Ret (VStr l), w) ->
  l = "ar" ∨ l = "en" ->
  telegram (w_calls w) (ReplyText (Texts l "downloading")) = Ret tt ->
  download_media file update w
  = try_finally
      (try_except
         (download_body file url (effective_user_id update) (VStr l))
         is_Exception (download_failed (VStr l)))
      (cleanup file)
      (mkWorld (w_data_file w) (w_media w) (w_log w)
               (w_calls w ++ [ReplyText (Texts l "downloading")]) (w_now w) (w_workers w)).
Proof.
  intros Htext Hurl Hlang Hl Hreply. unfold download_media. rewrite Htext.
  destruct url as [|ch url]; [done|].
  rewrite (run_bind_ret _ _ _ _ _ Hlang).
  rewrite (TEXTS_supported l "downloading" Hl).
  rewrite (run_bind_ret (lift (Ret (Texts l "downloading"))) _ w _ w eq_refl).
  rewrite (run_bind_ret (bot (ReplyText (Texts l "downloading"))) _ w tt
             (mkWorld (w_data_file w) (w_media w) (w_log w)
                      (w_calls w ++ [ReplyText (Texts l "downloading")])
                      (w_now w) (w_workers w)));
    [done|].
  unfold bot. by rewrite Hreply.
Qed.

(** The body of the [try] block up to the bookkeeping, when the
    extractor has written its file and the media goes out. *)
Lemma download_body_delivered file url user_id l info duration seconds
    catches handler w :
  l = "ar" ∨ l = "en" ->
  (∀ history c, telegram history c = Ret tt) ->
  extract_info url file = (Ret info, true) ->
  dict_get info "duration" (VInt 0) = Ret duration ->
  as_int duration = Ret seconds ->
  let media := if bool_decide (0 < seconds)
               then ReplyVideo file (Texts l "success")
               else ReplyPhoto file (Texts l "success") in
  try_except (download_body file url user_id (VStr l)) catches handler w
  = try_except (record_download user_id (VStr l)) catches handler
      (mkWorld (w_data_file w) ({[file]} ∪ w_media w) (w_log w)
               ((w_calls w ++ [media]) ++ [DeleteMessage]) (w_now w) (w_workers w)).
Proof.
  intros Hl Hapi Hextract Hduration Hseconds media. unfold download_body.
  set (w1 := mkWorld (w_data_file w) ({[file]} ∪ w_media w) (w_log w)
                     (w_calls w) (w_now w) (w_workers w)).
  assert (Hydl : ydl_extract url file w = (Ret info, w1))
    by (unfold ydl_extract; by rewrite Hextract).
  rewrite (try_except_bind_ret _ _ _ _ _ _ _ Hydl).
  assert (Hpresent : path_exists file w1 = (Ret true, w1)).
  { unfold path_exists. rewrite bool_decide_eq_true_2; [done|].
    simpl. apply elem_of_union. left. by apply elem_of_singleton. }
  rewrite (try_except_bind_ret _ _ _ _ _ _ _ Hpresent). cbv beta iota.
  rewrite Hduration.
  rewrite (try_except_bind_ret (lift (Ret duration)) _ _ _ w1 duration w1 eq_refl).
  rewrite Hseconds.
  rewrite (try_except_bind_ret (lift (Ret seconds)) _ _ _ w1 seconds w1 eq_refl).
  rewrite (TEXTS_supported l "success" Hl).
  rewrite (try_except_bind_ret (lift (Ret (Texts l "success"))) _ _ _ w1 _ w1
             eq_refl).
  set (w2 := mkWorld (w_data_file w) ({[file]} ∪ w_media w) (w_log w)
                     (w_calls w ++ [media]) (w_now w) (w_workers w)).
  assert (Hmedia :
    (if bool_decide (0 < seconds)
     then bot (ReplyVideo file (Texts l "success"))
     else bot (ReplyPhoto file (Texts l "success"))) w1 = (Ret tt, w2)).
  { unfold w2, media. destruct (bool_decide (0 < seconds));
      unfold bot; by rewrite Hapi. }
  rewrite (try_except_bind_ret _ _ _ _ _ _ _ Hmedia).
  assert (Hdelete : bot DeleteMessage w2
    = (Ret tt, mkWorld (w_data_file w) ({[file]} ∪ w_media w) (w_log w)
                       ((w_calls w ++ [media]) ++ [DeleteMessage]) (w_now w) (w_workers w)))
    by (unfold bot; by rewrite Hapi).
  by rewrite (try_except_bind_ret _ _ _ _ _ _ _ Hdelete).
Qed.

Lemma getitem_users_with others s :
  getitem (dict_of_store_with others s) "users"
  = Ret (VDict (others ∪ (dict_of_user <$> st_users s))).
Proof. reflexivity. Qed.

(** The bookkeeping on a record without a download count. *)
Lemma record_download_uncounted key l others fields s :
  l = "ar" ∨ l = "en" ->
  others !! key = Some (VDict fields) ->
  fields !! "download_count" = None ->
  record_download_update key (VStr l) (dict_of_store_with others s)
  = Raise (KeyError (VStr "download_count")).
Proof.
  intros Hl Hkey Hcount. unfold record_download_update.
  assert (Hlanguage :
    (if is_str "ar" (VStr l) then
       update_at (dict_of_store_with others s) "global_stats" (fun stats =>
         update_at stats "ar_downloads" add_one)
     else if is_str "en" (VStr l) then
       update_at (dict_of_store_with others s) "global_stats" (fun stats =>
         update_at stats "en_downloads" add_one)
     else Ret (dict_of_store_with others s))
    = Ret (dict_of_store_with others (count_language l s))).
  { unfold count_language, is_str. destruct Hl as [-> | ->]; reflexivity. }
  rewrite Hlanguage.
  change (mbind ?f (Ret ?a)) with (f a). cbv beta.
  rewrite getitem_users_with.
  change (mbind ?f (Ret ?a)) with (f a). cbv beta.
  unfold contains. rewrite (lookup_union_Some_l _ _ _ _ Hkey).
  rewrite bool_decide_eq_true_2 by by eexists.
  change (mbind ?f (Ret ?a)) with (f a). cbv beta iota.
  unfold update_at at 1. rewrite getitem_users_with.
  change (mbind ?f (Ret ?a)) with (f a). cbv beta.
  unfold update_at at 1. unfold getitem at 1.
  rewrite (lookup_union_Some_l _ _ _ _ Hkey).
  change (mbind ?f (Ret ?a)) with (f a). cbv beta.
  unfold update_at at 1. unfold getitem at 1. by rewrite Hcount.
Qed.

Lemma get_user_lang_uncounted user_id others fields s l w :
  load_data w = (Ret (dict_of_store_with others s), w) ->
  others !! py_str user_id = Some (VDict fields) ->
  default (VStr "en") (fields !! "lang") = VStr l ->
  get_user_lang user_id w = (Ret (VStr l), w).
Proof.
  intros Hload Hkey Hlang. unfold get_user_lang.
  rewrite (run_bind_ret _ _ _ _ _ Hload), getitem_users_with.
  unfold mbind, M_bind, lift, dict_get.
  rewrite (lookup_union_Some_l _ _ _ _ Hkey). simpl. by rewrite Hlang.
Qed.

End Paths.

(** X9.  The good path of [download_media].  For a user whose language
    is "ar" or "en" (a user without a record counts as "en"), when the
    extractor returns with the file written, the API accepts every call
    and the file can be removed, the handler returns normally after
    exactly three calls: the "downloading" reply, the media (as a video
    when the duration is positive, as a photo otherwise) and the removal
    of the first reply.  The data file then holds the store with the
    download recorded, the temporary file is gone and nothing is logged. *)
Theorem download_media_delivers `{Env}
    (file url : string) (update : Update) (s : Store)
    (info duration : value) (seconds : Z) (w : World) :
  message_text update = Some url -> url ≠ "" ->
  load_data w = (Ret (dict_of_store s), w) ->
  let key := py_str (effective_user_id update) in
  let l := default "en" (u_lang <$> st_users s !! key) in
  l = "ar" ∨ l = "en" ->
  (∀ history c, telegram history c = Ret tt) ->
  extract_info url file = (Ret info, true) ->
  dict_get info "duration" (VInt 0) = Ret duration ->
  as_int duration = Ret seconds ->
  remove_error file = None ->
  file ∉ w_media w ->
  ∃ w',
    download_media file update w = (Ret tt, w') ∧
    w_calls w'
    = w_calls w ++ [ReplyText (Texts l "downloading");
                    (if bool_decide (0 < seconds)
                     then ReplyVideo file (Texts l "success")
                     else ReplyPhoto file (Texts l "success"));
                    DeleteMessage] ∧
    w_data_file w'
    = Some (json_dumps (dict_of_store (count_user key (count_language l s)))) ∧
    w_media w' = w_media w ∧
    w_log w' = w_log w.
Proof.
  intros Htext Hurl Hload key l Hl Hapi Hextract Hduration Hseconds Hremove
    Hfresh.
  pose proof (run_get_user_lang w s (effective_user_id update) Hload) as Hlang.
  fold key in Hlang. fold l in Hlang.
  rewrite (download_media_started file update url l w Htext Hurl Hlang Hl
             (Hapi _ _)).
  eexists. split.
  - eapply try_finally_run; [|by apply cleanup_run].
    rewrite (download_body_delivered file url _ l info duration seconds
               _ _ _ Hl Hapi Hextract Hduration Hseconds).
    unfold try_except.
    erewrite run_record_download;
      [reflexivity|by apply (load_data_elsewhere w)].
  - cbn [w_calls w_data_file w_media w_log with_data_file].
    rewrite <- !app_assoc. split; [done|]. split; [done|].
    split; [by apply fresh_removed|done].
Qed.

Lemma download_media_delivers_witness :
  let w := @fresh_world fair_weather "2024-05-01" in
  let update := mkUpdate (Some "https://example.org/clip") 7 in
  ∃ w',
    download_media "media_1f.mp4" update w = (Ret tt, w') ∧
    w_calls w'
    = [ReplyText (Texts "en" "downloading");
       ReplyVideo "media_1f.mp4" (Texts "en" "success"); DeleteMessage] ∧
    w_data_file w'
    = Some (json_dumps (dict_of_store (mkStore ∅ "3.1" "2024-05-01" 0 1))) ∧
    w_media w' = w_media w ∧
    w_log w' = w_log w.
Proof.
  intros w update.
  assert (Hurl : "https://example.org/clip" ≠ "") by discriminate.
  assert (Hload : load_data w
                  = (Ret (dict_of_store (initial_store "2024-05-01")), w))
    by reflexivity.
  assert (Hl : "en" = "ar" ∨ "en" = "en") by (right; reflexivity).
  assert (Hapi : ∀ history c, @telegram fair_weather history c = Ret tt)
    by (intros history c; reflexivity).
  assert (Hfresh : "media_1f.mp4" ∉ w_media w) by apply not_elem_of_empty.
  exact (@download_media_delivers fair_weather "media_1f.mp4"
           "https://example.org/clip" update (initial_store "2024-05-01")
           (VDict {[ "duration" := VInt 10 ]}) (VInt 10) 10 w
           eq_refl Hurl Hload Hl Hapi eq_refl eq_refl eq_refl eq_refl Hfresh).
Defined.

(** X10.  When the wait for the extractor ends with an error,
    [download_media] handles it according to its kind.  An [Exception]
    is logged once and reported to the user in a second reply, the
    handler returns normally and no thread is left running.  Anything
    else (a cancellation) leaves the handler as it came, unlogged and
    unreported, and the extractor's thread runs on: the file it writes
    afterwards stays in the working directory.  In both cases the data
    file is untouched, and a file that is in place when the [finally]
    block runs is removed. *)
Theorem download_media_reports_failure `{Env}
    (file url : string) (update : Update) (s : Store)
    (e : exn) (written : bool) (w : World) :
  message_text update = Some url -> url ≠ "" ->
  load_data w = (Ret (dict_of_store s), w) ->
  let key := py_str (effective_user_id update) in
  let l := default "en" (u_lang <$> st_users s !! key) in
  l = "ar" ∨ l = "en" ->
  (∀ history c, telegram history c = Ret tt) ->
  extract_info url file = (Raise e, written) ->
  remove_error file = None ->
  file ∉ w_media w ->
  ∃ w',
    w_data_file w' = w_data_file w ∧ w_media w' = w_media w ∧
    if is_Exception e then
      download_media file update w = (Ret tt, w') ∧
      w_log w' = w_log w ++ [DownloadError e] ∧
      w_calls w'
      = w_calls w ++ [ReplyText (Texts l "downloading");
                      ReplyText (ErrorReport (Texts l "error") e)] ∧
      w_workers w' = w_workers w
    else
      download_media file update w = (Raise e, w') ∧
      w_log w' = w_log w ∧
      w_calls w' = w_calls w ++ [ReplyText (Texts l "downloading")] ∧
      w_workers w'
      = (if written_later url file then {[file]} ∪ w_workers w
         else w_workers w) ∧
      (written_later url file = true -> file ∈ w_media (workers_end w')).
Proof.
  intros Htext Hurl Hload key l Hl Hapi Hextract Hremove Hfresh.
  pose proof (run_get_user_lang w s (effective_user_id update) Hload) as Hlang.
  fold key in Hlang. fold l in Hlang.
  rewrite (download_media_started file update url l w Htext Hurl Hlang Hl
             (Hapi _ _)).
  set (w1 := mkWorld (w_data_file w) (w_media w) (w_log w)
               (w_calls w ++ [ReplyText (Texts l "downloading")]) (w_now w)
               (w_workers w)).
  destruct (ydl_extract url file w1) as [r w2] eqn:Hydl.
  assert (Hshape :
    r = Raise e ∧ w_data_file w2 = w_data_file w ∧ w_log w2 = w_log w ∧
    w_calls w2 = w_calls w1 ∧ w_now w2 = w_now w ∧
    w_media w2 ∖ {[file]} = w_media w ∧
    w_workers w2
    = (if is_Exception e then w_workers w
       else if written_later url file then {[file]} ∪ w_workers w
            else w_workers w)).
  { unfold ydl_extract in Hydl. rewrite Hextract in Hydl.
    injection Hydl as <- <-.
    assert (Hgone : ∀ b : bool,
      (if b then {[file]} ∪ w_media w else w_media w) ∖ {[file]} = w_media w).
    { intros []; [by apply fresh_removed|by apply absent_removed]. }
    specialize (Hgone written).
    destruct e, written, (written_later url file); by repeat split. }
  destruct Hshape as (-> & Hfile2 & Hlog2 & Hcalls2 & Hnow2 & Hmedia & Hworkers).
  destruct (is_Exception e) eqn:He.
  - eexists. split; [|split; [|split; [|split; [|split]]]]; cycle 2.
    + eapply try_finally_run; [|by apply cleanup_run].
      unfold download_body.
      rewrite (try_except_bind_raise _ _ _ _ _ _ _ Hydl), He.
      unfold download_failed.
      rewrite (run_bind_ret (logger_error (DownloadError e)) _ w2 tt _ eq_refl).
      rewrite (TEXTS_supported l "error" Hl).
      rewrite (run_bind_ret (lift (Ret (Texts l "error"))) _ _ _ _ eq_refl).
      unfold bot. rewrite Hapi. reflexivity.
    + cbn [w_log]. by rewrite Hlog2.
    + cbn [w_calls]. rewrite Hcalls2. unfold w1. cbn [w_calls].
      by rewrite <- app_assoc.
    + cbn [w_workers]. exact Hworkers.
    + cbn [w_data_file]. exact Hfile2.
    + cbn [w_media]. exact Hmedia.
  - eexists. split; [|split; [|split; [|split; [|split; [|split]]]]]; cycle 2.
    + eapply try_finally_run; [|by apply cleanup_run].
      unfold download_body.
      by rewrite (try_except_bind_raise _ _ _ _ _ _ _ Hydl), He.
    + cbn [w_log]. exact Hlog2.
    + cbn [w_calls]. by rewrite Hcalls2.
    + cbn [w_workers]. exact Hworkers.
    + intros Hlater. unfold workers_end. cbn [w_media w_workers].
      rewrite Hworkers, Hlater.
      apply elem_of_union. left. apply elem_of_union. left.
      by apply elem_of_singleton.
    + cbn [w_data_file]. exact Hfile2.
    + cbn [w_media]. exact Hmedia.
Qed.

Lemma download_media_reports_failure_witness :
  let w := @fresh_world cancelled_wait "2024-05-01" in
  let update := mkUpdate (Some "https://example.org/clip") 7 in
  ∃ w',
    w_data_file w' = w_data_file w ∧ w_media w' = w_media w ∧
    download_media "media_1f.mp4" update w = (Raise CancelledError, w') ∧
    w_log w' = [] ∧
    w_calls w' = [ReplyText (Texts "en" "downloading")] ∧
    w_workers w' = {[ "media_1f.mp4" ]} ∪ ∅ ∧
    (true = true -> "media_1f.mp4" ∈ w_media (workers_end w')).
Proof.
  intros w update.
  assert (Hurl : "https://example.org/clip" ≠ "") by discriminate.
  assert (Hload : load_data w
                  = (Ret (dict_of_store (initial_store "2024-05-01")), w))
    by reflexivity.
  assert (Hl : "en" = "ar" ∨ "en" = "en") by (right; reflexivity).
  assert (Hapi : ∀ history c, @telegram cancelled_wait history c = Ret tt)
    by (intros history c; reflexivity).
  assert (Hfresh : "media_1f.mp4" ∉ w_media w) by apply not_elem_of_empty.
  exact (@download_media_reports_failure cancelled_wait "media_1f.mp4"
           "https://example.org/clip" update (initial_store "2024-05-01")
           CancelledError false w
           eq_refl Hurl Hload Hl Hapi eq_refl eq_refl Hfresh).
Defined.

(** X11.  A record without a "download_count" entry breaks the
    bookkeeping after the media is out.  For a user with such a record
    and language "ar" or "en", on the good path of the extractor and the
    API, the handler sends the media and removes its first reply, then
    fails on the count with [KeyError]: it logs the error, sends the
    error text as a fourth call and returns normally, and the data file
    is what it was (the language counter is not raised either). *)
Theorem download_media_uncounted_record `{Env}
    (file url : string) (update : Update) (others fields : gmap string value)
    (s : Store) (l : string) (info duration : value) (seconds : Z) (w : World) :
  message_text update = Some url -> url ≠ "" ->
  load_data w = (Ret (dict_of_store_with others s), w) ->
  others !! py_str (effective_user_id update) = Some (VDict fields) ->
  fields !! "download_count" = None ->
  default (VStr "en") (fields !! "lang") = VStr l ->
  l = "ar" ∨ l = "en" ->
  (∀ history c, telegram history c = Ret tt) ->
  extract_info url file = (Ret info, true) ->
  dict_get info "duration" (VInt 0) = Ret duration ->
  as_int duration = Ret seconds ->
  remove_error file = None ->
  file ∉ w_media w ->
  let e := KeyError (VStr "download_count") in
  ∃ w',
    download_media file update w = (Ret tt, w') ∧
    w_calls w'
    = w_calls w ++ [ReplyText (Texts l "downloading");
                    (if bool_decide (0 < seconds)
                     then ReplyVideo file (Texts l "success")
                     else ReplyPhoto file (Texts l "success"));
                    DeleteMessage;
                    ReplyText (ErrorReport (Texts l "error") e)] ∧
    w_log w' = w_log w ++ [DownloadError e] ∧
    w_data_file w' = w_data_file w ∧
    w_media w' = w_media w.
Proof.
  intros Htext Hurl Hload Hkey Hcount Hlang Hl Hapi Hextract Hduration
    Hseconds Hremove Hfresh e.
  pose proof (get_user_lang_uncounted _ others fields s l w Hload Hkey Hlang)
    as Hget.
  rewrite (download_media_started file update url l w Htext Hurl Hget Hl
             (Hapi _ _)).
  eexists. split.
  - eapply try_finally_run; [|by apply cleanup_run].
    rewrite (download_body_delivered file url _ l info duration seconds
               _ _ _ Hl Hapi Hextract Hduration Hseconds).
    unfold record_download.
    erewrite try_except_bind_ret; [|by apply (load_data_elsewhere w)].
    rewrite (record_download_uncounted _ l others fields s Hl Hkey Hcount).
    erewrite try_except_bind_raise; [|reflexivity].
    cbn [is_Exception]. unfold download_failed.
    erewrite run_bind_ret; [|reflexivity].
    rewrite (TEXTS_supported l "error" Hl).
    erewrite run_bind_ret; [|reflexivity].
    unfold bot. rewrite Hapi. reflexivity.
  - cbn [w_calls w_data_file w_media w_log].
    rewrite <- !app_assoc. split; [done|]. split; [done|]. split; [done|].
    by apply fresh_removed.
Qed.

Lemma download_media_uncounted_record_witness :
  let fields : gmap string value :=
    {[ "first_seen" := VStr "2023-01-01"; "lang" := VStr "ar" ]} in
  let others : gmap string value := {[ "7" := VDict fields ]} in
  let s := initial_store "2024-05-01" in
  let w := @mkWorld fair_weather (Some (Some (dict_of_store_with others s)))
             ∅ [] [] "2024-05-02" ∅ in
  let update := mkUpdate (Some "https://example.org/clip") 7 in
  load_data w = (Ret (dict_of_store_with others s), w) ∧
  ∃ w',
    download_media "media_1f.mp4" update w = (Ret tt, w') ∧
    w_calls w'
    = [ReplyText (Texts "ar" "downloading");
       ReplyVideo "media_1f.mp4" (Texts "ar" "success");
       DeleteMessage;
       ReplyText (ErrorReport (Texts "ar" "error")
                    (KeyError (VStr "download_count")))] ∧
    w_log w' = [DownloadError (KeyError (VStr "download_count"))] ∧
    w_data_file w' = w_data_file w ∧
    w_media w' = w_media w.
Proof.
  intros fields others s w update.
  assert (Hurl : "https://example.org/clip" ≠ "") by discriminate.
  assert (Hload : load_data w = (Ret (dict_of_store_with others s), w))
    by reflexivity.
  assert (Hl : "ar" = "ar" ∨ "ar" = "en") by (left; reflexivity).
  assert (Hapi : ∀ history c, @telegram fair_weather history c = Ret tt)
    by (intros history c; reflexivity).
  assert (Hfresh : "media_1f.mp4" ∉ w_media w) by apply not_elem_of_empty.
  split; [exact Hload|].
  exact (@download_media_uncounted_record fair_weather "media_1f.mp4"
           "https://example.org/clip" update others fields s "ar"
           (VDict {[ "duration" := VInt 10 ]}) (VInt 10) 10 w
           eq_refl Hurl Hload eq_refl eq_refl eq_refl Hl Hapi
           eq_refl eq_refl eq_refl eq_refl Hfresh).
Defined.

(** ** The commands *)

Section Commands.
Context `{Env} (notify : notice -> outcome unit).
Implicit Types (w : World) (s : Store).

Lemma prefix_append (p t : string) :
  String.prefix p t = true -> ∃ rest, t = (p +:+ rest)%string.
Proof.
  revert t. induction p as [|a p IH]; intros t Hprefix.
  - by exists t.
  - destruct t as [|b t]; [done|]. simpl in Hprefix.
    destruct (ascii_dec a b) as [->|]; [|done].
    destruct (IH t Hprefix) as [rest ->]. by exists rest.
Qed.

Lemma split_at_cons sep (t : string) :
  ∃ piece pieces, split_at sep t = piece :: pieces.
Proof.
  induction t as [|c t (piece & pieces & IH)]; simpl.
  - by eexists _, _.
  - destruct (Ascii.eqb c sep); [by eexists _, _|].
    rewrite IH. by eexists _, _.
Qed.

Lemma second_piece_after_lang (rest : string) :
  ∃ l pieces,
    split_at "_" rest = l :: pieces ∧
    second_piece ("lang_" +:+ rest) = Ret l.
Proof.
  destruct (split_at_cons "_" rest) as (l & pieces & Hsplit).
  exists l, pieces. split; [done|].
  unfold second_piece.
  change (split_at "_" ("lang_" +:+ rest))
    with ("lang"%string :: split_at "_" rest).
  by rewrite Hsplit.
Qed.

Lemma relabelled_same now u : relabelled now (u_lang u) (Some u) = u.
Proof. by destruct u. Qed.

Lemma with_users_same s : with_users s (st_users s) = s.
Proof. by destruct s. Qed.

Lemma truthy_user u : truthy (dict_of_user u) = true.
Proof. by destruct u. Qed.

Lemma is_admin_spec update :
  is_admin update = true
  ↔ ADMIN_CHAT_ID = Some (py_str (effective_user_id update)).
Proof.
  unfold is_admin. rewrite bool_decide_eq_true. split; by intros ->.
Qed.

End Commands.

(** X12.  [help_command] answers in the language stored for the user,
    in English for a user without a record, with one reply and nothing
    else.  When the stored language is neither "ar" nor "en" it raises
    [KeyError] and sends nothing. *)
Theorem help_command_language `{Env} (update : Update) (s : Store) (w : World) :
  load_data w = (Ret (dict_of_store s), w) ->
  let l := default "en"
             (u_lang <$> st_users s !! py_str (effective_user_id update)) in
  (l = "ar" ∨ l = "en" ->
   help_command update w
   = (telegram (w_calls w) (ReplyText (Texts l "help")),
      mkWorld (w_data_file w) (w_media w) (w_log w)
              (w_calls w ++ [ReplyText (Texts l "help")]) (w_now w) (w_workers w))) ∧
  (¬ (l = "ar" ∨ l = "en") ->
   help_command update w = (Raise (KeyError (VStr l)), w)).
Proof.
  intros Hload l.
  pose proof (run_get_user_lang w s (effective_user_id update) Hload) as Hlang.
  fold l in Hlang. unfold help_command.
  rewrite (run_bind_ret _ _ _ _ _ Hlang). split; intros Hl.
  - rewrite (TEXTS_supported l "help" Hl).
    by rewrite (run_bind_ret (lift (Ret (Texts l "help"))) _ w _ w eq_refl).
  - rewrite (TEXTS_unsupported l "help" Hl).
    by rewrite (run_bind_raise (lift (Raise (KeyError (VStr l)))) _ w _ w eq_refl).
Qed.

Lemma help_command_language_witness :
  let w := @fresh_world fair_weather "2024-05-01" in
  let update := mkUpdate (Some "/help") 7 in
  load_data w = (Ret (dict_of_store (initial_store "2024-05-01")), w) ∧
  help_command update w
  = (Ret tt, mkWorld None ∅ [] [ReplyText (Texts "en" "help")] "2024-05-01" ∅).
Proof.
  intros w update.
  assert (Hload : load_data w
                  = (Ret (dict_of_store (initial_store "2024-05-01")), w))
    by reflexivity.
  split; [exact Hload|].
  exact (proj1 (@help_command_language fair_weather update _ w Hload)
           (or_intror eq_refl)).
Defined.

(** X13.  A user whose stored language is neither "ar" nor "en" gets
    nothing out of [download_media]: the handler raises [KeyError] on
    its first text, outside the [try] statement, before any reply, any
    extraction and any write. *)
Theorem unsupported_language_blocks_download `{Env}
    (file url : string) (update : Update) (s : Store) (w : World) :
  load_data w = (Ret (dict_of_store s), w) ->
  let l := default "en"
             (u_lang <$> st_users s !! py_str (effective_user_id update)) in
  ¬ (l = "ar" ∨ l = "en") ->
  message_text update = Some url -> url ≠ "" ->
  download_media file update w = (Raise (KeyError (VStr l)), w).
Proof.
  intros Hload l Hl Htext Hurl.
  pose proof (run_get_user_lang w s (effective_user_id update) Hload) as Hlang.
  fold l in Hlang. unfold download_media. rewrite Htext.
  destruct url as [|ch url]; [done|].
  rewrite (run_bind_ret _ _ _ _ _ Hlang).
  rewrite (TEXTS_unsupported l "downloading" Hl).
  by rewrite (run_bind_raise (lift (Raise (KeyError (VStr l)))) _ w _ w eq_refl).
Qed.

Lemma unsupported_language_blocks_download_witness :
  let w := (@set_user_lang fair_weather 7 (VStr "fr")
              (@fresh_world fair_weather "2024-05-01")).2 in
  let s := mkStore {[ "7" := mkUser "2024-05-01" "fr" 0 ]}
                   "3.1" "2024-05-01" 0 0 in
  let update := mkUpdate (Some "https://example.org/clip") 7 in
  load_data w = (Ret (dict_of_store s), w) ∧
  download_media "media_1f.mp4" update w = (Raise (KeyError (VStr "fr")), w).
Proof.
  intros w s update.
  assert (Hload : load_data w = (Ret (dict_of_store s), w)) by reflexivity.
  assert (Hl : ¬ ("fr" = "ar" ∨ "fr" = "en")) by (intros [Hl|Hl]; discriminate).
  assert (Hurl : "https://example.org/clip" ≠ "") by discriminate.
  split; [exact Hload|].
  exact (@unsupported_language_blocks_download fair_weather "media_1f.mp4"
           "https://example.org/clip" update s w Hload Hl eq_refl Hurl).
Defined.

(** X14.  A callback query whose data begins with "lang_" always has a
    second piece, so the index in [language_handler] is in range.  Once
    the query is answered, the handler stores that piece as the user's
    language (creating the record if there is none) before it looks up
    any text: for "ar" and "en" it then sends the welcome, for any other
    piece it raises [KeyError] with the piece already saved. *)
Theorem language_handler_stores_then_checks `{Env}
    (notify : notice -> outcome unit) (query : CallbackQuery)
    (s : Store) (w : World) :
  String.prefix "lang_" (query_data query) = true ->
  notify QueryAnswer = Ret tt ->
  load_data w = (Ret (dict_of_store s), w) ->
  ∃ l,
    second_piece (query_data query) = Ret l ∧
    let key := py_str (from_user_id query) in
    let w' := with_data_file w (json_dumps (dict_of_store (with_users s
                (<[key := relabelled (w_now w) l (st_users s !! key)]>
                   (st_users s))))) in
    (l = "ar" ∨ l = "en" ->
     callback_query_handler notify query w
     = (notify (Welcome (Texts l "welcome") (Texts l "start")), w')) ∧
    (¬ (l = "ar" ∨ l = "en") ->
     callback_query_handler notify query w = (Raise (KeyError (VStr l)), w')).
Proof.
  intros Hprefix Hanswer Hload.
  destruct (prefix_append _ _ Hprefix) as [rest Hdata].
  destruct (second_piece_after_lang rest) as (l & pieces & _ & Hpiece).
  rewrite <- Hdata in Hpiece.
  exists l. split; [exact Hpiece|]. intros key w'.
  unfold callback_query_handler. rewrite Hprefix. unfold language_handler.
  rewrite (run_bind_ret (send_notice notify QueryAnswer) _ w tt w)
    by (unfold send_notice; by rewrite Hanswer).
  rewrite Hpiece.
  rewrite (run_bind_ret (lift (Ret l)) _ w l w eq_refl).
  rewrite (run_bind_ret _ _ _ _ _
             (run_set_user_lang w s (from_user_id query) l Hload)).
  fold key. fold w'. split; intros Hl.
  - rewrite !(TEXTS_supported l _ Hl).
    rewrite (run_bind_ret (lift (Ret (Texts l "welcome"))) _ w' _ w' eq_refl).
    by rewrite (run_bind_ret (lift (Ret (Texts l "start"))) _ w' _ w' eq_refl).
  - rewrite (TEXTS_unsupported l "welcome" Hl).
    by rewrite (run_bind_raise (lift (Raise (KeyError (VStr l)))) _ w' _ w'
                  eq_refl).
Qed.

Lemma language_handler_stores_then_checks_witness :
  let w := @fresh_world fair_weather "2024-05-01" in
  let query := mkQuery "lang_fr" 7 in
  let s := initial_store "2024-05-01" in
  String.prefix "lang_" (query_data query) = true ∧
  delivered QueryAnswer = Ret tt ∧
  load_data w = (Ret (dict_of_store s), w) ∧
  callback_query_handler delivered query w
  = (Raise (KeyError (VStr "fr")),
     with_data_file w (json_dumps (dict_of_store
       (mkStore {[ "7" := mkUser "2024-05-01" "fr" 0 ]}
                "3.1" "2024-05-01" 0 0)))).
Proof.
  intros w query s.
  assert (Hprefix : String.prefix "lang_" (query_data query) = true)
    by reflexivity.
  assert (Hload : load_data w = (Ret (dict_of_store s), w)) by reflexivity.
  split; [exact Hprefix|]. split; [reflexivity|]. split; [exact Hload|].
  destruct (@language_handler_stores_then_checks fair_weather delivered query
              s w Hprefix eq_refl Hload) as (l & Hpiece & _ & Hbad).
  assert (l = "fr") as -> by (injection Hpiece as <-; reflexivity).
  apply Hbad. intros [Hl|Hl]; discriminate.
Defined.

(** X15.  [start_command] registers without overwriting.  For a user
    who has a record it writes back the very store it read, so the
    language, first_seen and download count stay; for a new user it
    adds the record with language "en" and no downloads.  The store is
    written before the language prompt is sent, whose outcome is the
    handler's. *)
Theorem start_command_registers `{Env}
    (notify : notice -> outcome unit) (update : Update) (s : Store) (w : World) :
  load_data w = (Ret (dict_of_store s), w) ->
  let key := py_str (effective_user_id update) in
  (∀ u, st_users s !! key = Some u ->
     start_command notify update w
     = (notify LanguagePrompt,
        with_data_file w (json_dumps (dict_of_store s)))) ∧
  (st_users s !! key = None ->
     start_command notify update w
     = (notify LanguagePrompt,
        with_data_file w (json_dumps (dict_of_store (with_users s
          (<[key := mkUser (w_now w) "en" 0]> (st_users s))))))).
Proof.
  intros Hload key.
  pose proof (run_get_user_lang w s (effective_user_id update) Hload) as Hlang.
  fold key in Hlang.
  assert (Hrun : start_command notify update w
    = (notify LanguagePrompt,
       with_data_file w (json_dumps (dict_of_store (with_users s
         (<[key := relabelled (w_now w)
                     (default "en" (u_lang <$> st_users s !! key))
                     (st_users s !! key)]> (st_users s))))))).
  { unfold start_command. rewrite (run_bind_ret _ _ _ _ _ Hlang).
    by rewrite (run_bind_ret _ _ _ _ _
                  (run_set_user_lang w s (effective_user_id update) _ Hload)). }
  split.
  - intros u Hu. rewrite Hrun, Hu. simpl default.
    by rewrite relabelled_same, insert_id, with_users_same.
  - intros Hu. by rewrite Hrun, Hu.
Qed.

Lemma start_command_registers_witness :
  let w := (@set_user_lang fair_weather 7 (VStr "ar")
              (@fresh_world fair_weather "2024-05-01")).2 in
  let s := mkStore {[ "7" := mkUser "2024-05-01" "ar" 0 ]}
                   "3.1" "2024-05-01" 0 0 in
  load_data w = (Ret (dict_of_store s), w) ∧
  start_command delivered (mkUpdate (Some "/start") 7) w
  = (Ret tt, with_data_file w (json_dumps (dict_of_store s))) ∧
  start_command delivered (mkUpdate (Some "/start") 8) w
  = (Ret tt, with_data_file w (json_dumps (dict_of_store
       (mkStore {[ "7" := mkUser "2024-05-01" "ar" 0;
                   "8" := mkUser "2024-05-01" "en" 0 ]}
                "3.1" "2024-05-01" 0 0)))).
Proof.
  intros w s.
  assert (Hload : load_data w = (Ret (dict_of_store s), w)) by reflexivity.
  split; [exact Hload|]. split.
  - exact (proj1 (@start_command_registers fair_weather delivered
                    (mkUpdate (Some "/start") 7) s w Hload)
             (mkUser "2024-05-01" "ar" 0) eq_refl).
  - exact (proj2 (@start_command_registers fair_weather delivered
                    (mkUpdate (Some "/start") 8) s w Hload) eq_refl).
Defined.

(** X16.  For the admin, [user_info_command] looks its first argument
    up as it is typed among the keys of the users: for a key that is
    there it sends the sheet with the record's first_seen, language and
    download count, for one that is not it replies "user not found".  It
    neither writes nor logs. *)
Theorem user_info_command_lookup `{Env}
    (notify : notice -> outcome unit) (update : Update)
    (target : string) (more : list string) (s : Store) (w : World) :
  is_admin update = true ->
  load_data w = (Ret (dict_of_store s), w) ->
  (∀ u, st_users s !! target = Some u ->
     user_info_command notify update (target :: more) w
     = (notify (UserSheet target (VStr (u_first_seen u)) (VStr (u_lang u))
                  (VInt (u_download_count u))), w)) ∧
  (st_users s !! target = None ->
     user_info_command notify update (target :: more) w
     = (telegram (w_calls w) (ReplyText (Texts "ar" "user_not_found")),
        mkWorld (w_data_file w) (w_media w) (w_log w)
                (w_calls w ++ [ReplyText (Texts "ar" "user_not_found")])
                (w_now w) (w_workers w))).
Proof.
  intros Hadmin Hload. unfold user_info_command. rewrite Hadmin.
  cbn [negb]. rewrite (run_bind_ret _ _ _ _ _ Hload), getitem_users.
  rewrite (run_bind_ret (lift (Ret (VDict (dict_of_user <$> st_users s))))
             _ w _ w eq_refl).
  assert (Hget : dict_get (VDict (dict_of_user <$> st_users s)) target VNone
                 = Ret (default VNone (dict_of_user <$> st_users s !! target)))
    by (simpl; by rewrite lookup_fmap).
  rewrite Hget. split.
  - intros u ->. cbn [fmap option_fmap option_map default].
    rewrite (run_bind_ret (lift (Ret (dict_of_user u))) _ w _ w eq_refl).
    rewrite truthy_user. destruct u. reflexivity.
  - intros ->. cbn [fmap option_fmap option_map default].
    by rewrite (run_bind_ret (lift (Ret VNone)) _ w _ w eq_refl).
Qed.

Lemma user_info_command_lookup_witness :
  let w := (@set_user_lang fair_weather 7 (VStr "ar")
              (@fresh_world fair_weather "2024-05-01")).2 in
  let s := mkStore {[ "7" := mkUser "2024-05-01" "ar" 0 ]}
                   "3.1" "2024-05-01" 0 0 in
  let admin := mkUpdate (Some "/userinfo") 1 in
  @is_admin fair_weather admin = true ∧
  load_data w = (Ret (dict_of_store s), w) ∧
  user_info_command delivered admin ["7"] w = (Ret tt, w) ∧
  (user_info_command delivered admin ["07"] w).1 = Ret tt ∧
  w_calls (user_info_command delivered admin ["07"] w).2
  = [ReplyText (Texts "ar" "user_not_found")].
Proof.
  intros w s admin.
  assert (Hadmin : @is_admin fair_weather admin = true) by reflexivity.
  assert (Hload : load_data w = (Ret (dict_of_store s), w)) by reflexivity.
  split; [exact Hadmin|]. split; [exact Hload|].
  pose proof (proj1 (@user_info_command_lookup fair_weather delivered admin
                       "7" [] s w Hadmin Hload)
                (mkUser "2024-05-01" "ar" 0) eq_refl) as Hfound.
  pose proof (proj2 (@user_info_command_lookup fair_weather delivered admin
                       "07" [] s w Hadmin Hload) eq_refl) as Hmissing.
  split; [exact Hfound|]. rewrite Hmissing. split; reflexivity.
Defined.

(** X17.  The admin commands admit one user id at most, the one whose
    decimal writing is [ADMIN_CHAT_ID]; when that is not set they admit
    nobody.  A user who is not admitted gets the "no permission" reply
    from each of the three commands and nothing else happens: no data is
    read, no broadcast goes out. *)
Theorem admin_gate `{Env}
    (notify : notice -> outcome unit) (update : Update)
    (args : list string) (w : World) :
  (ADMIN_CHAT_ID = None -> is_admin update = false) ∧
  (∀ update', is_admin update = true -> is_admin update' = true ->
     effective_user_id update' = effective_user_id update) ∧
  (is_admin update = false ->
   let refusal := bot (ReplyText (Texts "en" "no_permission")) w in
   stats_command update w = refusal ∧
   broadcast_command update args w = refusal ∧
   user_info_command notify update args w = refusal ∧
   w_calls refusal.2 = w_calls w ++ [ReplyText (Texts "en" "no_permission")]).
Proof.
  split; [|split].
  - intros Hunset. unfold is_admin. rewrite Hunset.
    by apply bool_decide_eq_false_2.
  - intros update' Hadmin Hadmin'.
    apply is_admin_spec in Hadmin, Hadmin'.
    rewrite Hadmin in Hadmin'. injection Hadmin' as Heq.
    symmetry. by apply py_str_inj.
  - intros Hrefused refusal.
    unfold stats_command, broadcast_command, user_info_command.
    by rewrite Hrefused.
Qed.

Lemma keys_of_users `{Env} (users : gmap string UserRecord) :
  let ids := (map_to_list (dict_of_user <$> users)).*1 in
  NoDup ids ∧
  (∀ key, key ∈ ids ↔ is_Some (users !! key)) ∧
  length ids = size users.
Proof.
  intros ids. split; [apply NoDup_fst_map_to_list|]. split.
  - intros key. unfold ids. rewrite list_elem_of_fmap. split.
    + intros ([key' v] & -> & Hin). apply elem_of_map_to_list in Hin.
      rewrite lookup_fmap in Hin. simpl.
      destruct (users !! key') as [u|]; [by eexists|done].
    + intros [u Hu]. exists (key, dict_of_user u). split; [done|].
      apply elem_of_map_to_list. by rewrite lookup_fmap, Hu.
  - unfold ids. by rewrite length_fmap, length_map_to_list, map_size_fmap.
Qed.

Lemma fails_for_2_exceptions :
  ∀ history c e,
    @telegram fails_for_2 history c = Raise e -> is_Exception e = true.
Proof.
  intros history c e. simpl.
  destruct c as [| | | |chat_id body]; try discriminate.
  destruct (decide (chat_id = "2")) as [->|Hne].
  - by intros [= <-].
  - intros Hraise. exfalso. revert Hraise.
    repeat (destruct chat_id as [|[[] [] [] [] [] [] [] []] chat_id];
            try discriminate; try done).
Qed.

(** X18.  For the admin, with a message and replies that go through,
    [broadcast_command] sends the words of the command, joined by
    spaces, to every user of the store exactly once, then tells the
    admin how many sends succeeded and, only when some failed, how many
    failed.  The two numbers add up to the number of users, and the
    data file is left as it was. *)
Theorem broadcast_command_reaches_every_user `{Env}
    (update : Update) (args : list string) (s : Store) (w : World) :
  is_admin update = true ->
  args ≠ [] ->
  load_data w = (Ret (dict_of_store s), w) ->
  (∀ history c e, telegram history c = Raise e -> is_Exception e = true) ->
  (∀ history m, telegram history (ReplyText m) = Ret tt) ->
  let body := String.concat " " args in
  ∃ ids sent_count error_count w',
    broadcast_command update args w = (Ret tt, w') ∧
    NoDup ids ∧
    (∀ key, key ∈ ids ↔ is_Some (st_users s !! key)) ∧
    sent_count = count_if succeeded (send_results (w_calls w) body ids) ∧
    sent_count + error_count = Z.of_nat (size (st_users s)) ∧
    w_calls w'
    = w_calls w
      ++ ((fun user_id => SendMessage user_id body) <$> ids)
      ++ [ReplyText (TextsFormat "ar" "broadcast_sent" sent_count)]
      ++ (if bool_decide (0 < error_count)
          then [ReplyText (TextsFormat "ar" "broadcast_error" error_count)]
          else []) ∧
    w_data_file w' = w_data_file w ∧
    w_media w' = w_media w.
Proof.
  intros Hadmin Hargs Hload Hexc Hreply body.
  set (ids := (map_to_list (dict_of_user <$> st_users s)).*1).
  destruct (keys_of_users (st_users s)) as (Hnodup & Hkeys & Hlength).
  fold ids in Hnodup, Hkeys, Hlength.
  destruct (broadcast_loop_run body ids 0 0 w Hexc)
    as (w1 & Hloop & Hcalls & Hfile & Hmedia).
  rewrite !Z.add_0_l in Hloop.
  set (sent_count := count_if succeeded (send_results (w_calls w) body ids))
    in *.
  set (error_count := count_if failed (send_results (w_calls w) body ids))
    in *.
  set (report := ReplyText (TextsFormat "ar" "broadcast_sent" sent_count)).
  set (w2 := mkWorld (w_data_file w1) (w_media w1) (w_log w1)
                     (w_calls w1 ++ [report]) (w_now w1) (w_workers w1)).
  assert (Hrun : ∃ w',
    broadcast_command update args w = (Ret tt, w') ∧
    w_calls w'
    = w_calls w2
      ++ (if bool_decide (0 < error_count)
          then [ReplyText (TextsFormat "ar" "broadcast_error" error_count)]
          else []) ∧
    w_data_file w' = w_data_file w1 ∧ w_media w' = w_media w1).
  { unfold broadcast_command. rewrite Hadmin. cbn [negb].
    destruct args as [|word words]; [done|]. fold body.
    rewrite (run_bind_ret _ _ _ _ _ Hload), getitem_users.
    rewrite (run_bind_ret (lift (Ret (VDict (dict_of_user <$> st_users s))))
               _ w _ w eq_refl).
    change (dict_keys (VDict (dict_of_user <$> st_users s))) with (Ret ids).
    rewrite (run_bind_ret (lift (Ret ids)) _ w _ w eq_refl).
    rewrite (run_bind_ret _ _ _ _ _ Hloop). cbn [fst snd].
    rewrite (run_bind_ret (bot report) _ w1 tt w2)
      by (unfold bot, report; by rewrite Hreply).
    destruct (bool_decide (0 < error_count)).
    - eexists. split; [unfold bot; by rewrite Hreply|]. done.
    - eexists. split; [reflexivity|]. by rewrite app_nil_r. }
  destruct Hrun as (w' & Hrun & Hcalls' & Hfile' & Hmedia').
  exists ids, sent_count, error_count, w'.
  split; [exact Hrun|]. split; [exact Hnodup|]. split; [exact Hkeys|].
  split; [done|]. split.
  { unfold sent_count, error_count, failed. rewrite count_if_split.
    by rewrite send_results_length, Hlength. }
  split.
  { rewrite Hcalls'. unfold w2. cbn [w_calls]. rewrite Hcalls.
    by rewrite <- !app_assoc. }
  split; congruence.
Qed.

Lemma broadcast_command_reaches_every_user_witness :
  let s := mkStore {[ "1" := mkUser "2024-05-01" "en" 0;
                      "2" := mkUser "2024-05-01" "ar" 0 ]}
                   "3.1" "2024-05-01" 0 0 in
  let w := @mkWorld fails_for_2 (Some (Some (dict_of_store s))) ∅ [] []
             "2024-05-02" ∅ in
  let admin := mkUpdate (Some "/broadcast") 1 in
  @is_admin fails_for_2 admin = true ∧
  load_data w = (Ret (dict_of_store s), w) ∧
  ∃ (ids : list string) (sent_count error_count : Z) (w' : @World fails_for_2),
    broadcast_command admin ["new"; "version"] w = (Ret tt, w') ∧
    NoDup ids ∧
    (∀ key : string, key ∈ ids ↔ is_Some (st_users s !! key)) ∧
    sent_count
    = count_if succeeded
        (@send_results fails_for_2 (w_calls w) "new version" ids) ∧
    sent_count + error_count = 2 ∧
    w_calls w'
    = w_calls w
      ++ ((fun user_id => SendMessage user_id "new version") <$> ids)
      ++ [ReplyText (TextsFormat "ar" "broadcast_sent" sent_count)]
      ++ (if bool_decide (0 < error_count)
          then [ReplyText (TextsFormat "ar" "broadcast_error" error_count)]
          else []) ∧
    w_data_file w' = w_data_file w ∧
    w_media w' = w_media w.
Proof.
  intros s w admin.
  assert (Hadmin : @is_admin fails_for_2 admin = true) by reflexivity.
  assert (Hload : load_data w = (Ret (dict_of_store s), w)) by reflexivity.
  assert (Hargs : ["new"; "version"] ≠ ([] : list string)) by discriminate.
  assert (Hreply : ∀ history m,
            @telegram fails_for_2 history (ReplyText m) = Ret tt)
    by (intros history m; reflexivity).
  split; [exact Hadmin|]. split; [exact Hload|].
  exact (@broadcast_command_reaches_every_user fails_for_2 admin
           ["new"; "version"] s w Hadmin Hargs Hload
           fails_for_2_exceptions Hreply).
Defined.

(** X19.  For the admin, [stats_command] sends one reply, the report
    of [compute_totals] on what [load_data] returned: on a store of the
    bot's shape, the number of users, the sum of their download counts,
    the two counters, the version and the start date.  It reads every
    entry with a default, so on a data file whose object has none of the
    three entries it reports zeros and the "unknown" text instead of
    raising. *)
Theorem stats_command_reports `{Env} (update : Update) (w : World) :
  is_admin update = true ->
  (∀ s, load_data w = (Ret (dict_of_store s), w) ->
     stats_command update w
     = bot (ReplyText (StatsReport
              (Z.of_nat (size (st_users s))) (downloads_of_users (st_users s))
              (VInt (st_ar_downloads s)) (VInt (st_en_downloads s))
              (VStr (st_version s)) (VStr (st_start_date s)))) w) ∧
  (∀ c (d : gmap string value),
     w_data_file w = Some c -> json_loads c = Some (VDict d) ->
     d !! "users" = None -> d !! "system" = None ->
     d !! "global_stats" = None ->
     stats_command update w
     = bot (ReplyText (StatsReport 0 0 (VInt 0) (VInt 0)
                         (VStr "غير معروف") (VStr "غير معروف"))) w).
Proof.
  intros Hadmin. unfold stats_command. rewrite Hadmin. cbn [negb]. split.
  - intros s Hload. rewrite (run_bind_ret _ _ _ _ _ Hload).
    rewrite compute_totals_shape.
    by rewrite (run_bind_ret (lift (Ret _)) _ w _ w eq_refl).
  - intros c d Hfile Hdoc Husers Hsystem Hstats.
    destruct (load_data_repairs_global_stats_aux w c d Hfile Hdoc)
      as (d' & Hload & Hother).
    assert (Hstats' : d' !! "global_stats" = Some zero_stats).
    { revert Hload.
      unfold load_data, try_except, read_data_file, mbind, M_bind, lift,
        json_load.
      rewrite Hfile, Hdoc. simpl. rewrite Hstats.
      rewrite bool_decide_eq_false_2 by (by intros [? ?]). simpl.
      intros [= <-]. apply lookup_insert_eq. }
    rewrite (run_bind_ret _ _ _ _ _ Hload).
    assert (Htotals : compute_totals (VDict d')
      = Ret (mkTotals 0 0 (VInt 0) (VInt 0)
                      (VStr "غير معروف") (VStr "غير معروف"))).
    { unfold compute_totals, dict_get.
      rewrite (Hother "users"), (Hother "system"), Husers, Hsystem, Hstats'
        by done.
      cbn [default]. change (mbind ?f (Ret ?a)) with (f a). cbv beta.
      unfold py_len, dict_values.
      rewrite map_size_empty, map_to_list_empty. reflexivity. }
    rewrite Htotals.
    by rewrite (run_bind_ret (lift (Ret _)) _ w _ w eq_refl).
Qed.

Lemma stats_command_reports_witness :
  let s := mkStore {[ "7" := mkUser "2024-05-01" "ar" 3 ]}
                   "3.1" "2024-05-01" 3 0 in
  let w := @mkWorld fair_weather (Some (Some (dict_of_store s))) ∅ [] []
             "2024-05-02" ∅ in
  let admin := mkUpdate (Some "/stats") 1 in
  @is_admin fair_weather admin = true ∧
  load_data w = (Ret (dict_of_store s), w) ∧
  stats_command admin w
  = bot (ReplyText (StatsReport 1 3 (VInt 3) (VInt 0)
                      (VStr "3.1") (VStr "2024-05-01"))) w.
Proof.
  intros s w admin.
  assert (Hadmin : @is_admin fair_weather admin = true) by reflexivity.
  assert (Hload : load_data w = (Ret (dict_of_store s), w)) by reflexivity.
  split; [exact Hadmin|]. split; [exact Hload|].
  exact (proj1 (@stats_command_reports fair_weather admin w Hadmin) s Hload).
Defined.
